(** * Tax_agent: per-user document store, retrieval tool and ask endpoint

    A shallow embedding of [embedding2.py] (the per-user FAISS store),
    [rag.py] (the retrieval tool and [ask_question]) and [app.py] (the
    [/chat/agent] endpoint), followed by the properties of the
    specification that are settled on it.

    Python [str] values are Rocq strings whose characters stand for the code
    points below 256.  The environment of the code is explicit: the file
    system, the UUID source and the log of calls are components of
    [World]; the embedding service, the metric of the index and the agent
    are parameters. *)

From Stdlib Require Import ZArith Ascii String List Sorting.Sorted.
From stdpp Require Import base option list sorting gmap strings fin_maps pretty.

Local Open Scope string_scope.
Local Open Scope Z_scope.

(* ================================================================== *)
(** ** Python string primitives *)
(* ================================================================== *)

Module Py.

Definition sep : ascii := "/"%char.
Definition extsep : ascii := "."%char.

(** [bool(s)] for a [str]: the empty string is falsy. *)
Definition truthy (s : string) : bool :=
  match s with EmptyString => false | String _ _ => true end.

Definition startswith_char (c : ascii) (s : string) : bool :=
  match s with
  | EmptyString => false
  | String a _ => Ascii.eqb a c
  end.

Fixpoint endswith_char (c : ascii) (s : string) : bool :=
  match s with
  | EmptyString => false
  | String a EmptyString => Ascii.eqb a c
  | String _ s' => endswith_char c s'
  end.

(** [s[n:]] and [s[:n]] for [0 <= n]. *)
Fixpoint drop (n : nat) (s : string) : string :=
  match n, s with
  | O, _ => s
  | S n', String _ s' => drop n' s'
  | S _, EmptyString => EmptyString
  end.

Fixpoint take (n : nat) (s : string) : string :=
  match n, s with
  | S n', String a s' => String a (take n' s')
  | _, _ => EmptyString
  end.

(** [s.rfind(c)]: the highest index of [c], [-1] when absent. *)
Fixpoint rfind_from (c : ascii) (s : string) (i last : Z) : Z :=
  match s with
  | EmptyString => last
  | String a s' =>
      rfind_from c s' (i + 1) (if Ascii.eqb a c then i else last)
  end.

Definition rfind (c : ascii) (s : string) : Z := rfind_from c s 0 (-1).

Fixpoint all_char (c : ascii) (s : string) : bool :=
  match s with
  | EmptyString => true
  | String a s' => Ascii.eqb a c && all_char c s'
  end.

(** [s.replace(c, '')] for a one-character [c]. *)
Fixpoint remove_char (c : ascii) (s : string) : string :=
  match s with
  | EmptyString => EmptyString
  | String a s' =>
      if Ascii.eqb a c then remove_char c s' else String a (remove_char c s')
  end.

(** [str.lower] on the code points below 256: A-Z and the Latin-1
    capitals U+00C0..U+00DE (U+00D7 is the multiplication sign). *)
Definition lower_char (a : ascii) : ascii :=
  let n := N_of_ascii a in
  if ((65 <=? n) && (n <=? 90)
      || (192 <=? n) && (n <=? 222) && negb (n =? 215))%N
  then ascii_of_N (n + 32) else a.

Fixpoint lower (s : string) : string :=
  match s with
  | EmptyString => EmptyString
  | String a s' => String (lower_char a) (lower s')
  end.

(** [str.isspace] on one code point below 256. *)
Definition isspace (a : ascii) : bool :=
  let n := N_of_ascii a in
  ((9 <=? n) && (n <=? 13) || (28 <=? n) && (n <=? 32)
   || (n =? 133) || (n =? 160))%N.

Fixpoint lstrip (s : string) : string :=
  match s with
  | EmptyString => EmptyString
  | String a s' => if isspace a then lstrip s' else s
  end.

(** [rstrip]: a character is kept when it is not a space or when
    something is kept after it. *)
Fixpoint rstrip (s : string) : string :=
  match s with
  | EmptyString => EmptyString
  | String a s' =>
      match rstrip s' with
      | EmptyString => if isspace a then EmptyString else String a EmptyString
      | r => String a r
      end
  end.

Definition strip (s : string) : string := rstrip (lstrip s).

(** [sep.join(parts)]. *)
Fixpoint join (sp : string) (parts : list string) : string :=
  match parts with
  | [] => ""
  | [p] => p
  | p :: rest => p +:+ sp +:+ join sp rest
  end.

(** [l[:k]] for a Python [int] [k]: a negative [k] counts from the end. *)
Definition slice_to {A} (k : Z) (l : list A) : list A :=
  if 0 <=? k then firstn (Z.to_nat k) l
  else firstn (length l - Z.to_nat (- k))%nat l.

End Py.

(* ================================================================== *)
(** ** [os.path] (posixpath) *)
(* ================================================================== *)

Module OsPath.

(** [posixpath.join(a, b)]: an absolute [b] discards [a]; a separator is
    inserted unless [a] is empty or already ends with one. *)
Definition join (a b : string) : string :=
  if Py.startswith_char Py.sep b then b
  else if negb (Py.truthy a) || Py.endswith_char Py.sep a then a +:+ b
  else a +:+ "/" +:+ b.

(** [posixpath.basename(p)]: [p[p.rfind('/') + 1:]]. *)
Definition basename (p : string) : string :=
  Py.drop (Z.to_nat (Py.rfind Py.sep p + 1)) p.

(** [genericpath._splitext]: the extension starts at the last dot, but
    only when that dot comes after the last separator and the name has a
    character other than a dot before it. *)
Definition splitext (p : string) : string * string :=
  let sepIndex := Py.rfind Py.sep p in
  let dotIndex := Py.rfind Py.extsep p in
  if sepIndex <? dotIndex then
    let filenameIndex := Z.to_nat (sepIndex + 1) in
    let lead := Py.take (Z.to_nat dotIndex - filenameIndex)%nat
                        (Py.drop filenameIndex p) in
    if Py.all_char Py.extsep lead then (p, "")
    else (Py.take (Z.to_nat dotIndex) p, Py.drop (Z.to_nat dotIndex) p)
  else (p, "").

End OsPath.

(* ================================================================== *)
(** ** Exceptions and outcomes *)
(* ================================================================== *)

(** A Python exception: its class name and [str(e)]. *)
Inductive exn := Exn (cls : string) (msg : string).

Definition str_of_exn (e : exn) : string :=
  match e with Exn _ msg => msg end.

Inductive outcome (A : Type) :=
| Returned (a : A)
| Raised (e : exn).
Arguments Returned {A} a.
Arguments Raised {A} e.

(* ================================================================== *)
(** ** Documents and the embedding capability *)
(* ================================================================== *)

(** A metadata [dict] with [str] keys and values, in insertion order. *)
Definition metadata := list (string * string).

(** [metadata.get(key)]. *)
Fixpoint metadata_get (key : string) (m : metadata) : option string :=
  match m with
  | [] => None
  | (k, v) :: m' => if String.eqb k key then Some v else metadata_get key m'
  end.

(** [langchain_core.documents.Document]. *)
Record Document := mkDocument {
  doc_id : option string;
  page_content : string;
  doc_metadata : metadata
}.

(** The capabilities the code calls and does not define: the embedding
    model behind [OpenAIEmbeddings], the metric of [faiss.IndexFlatL2],
    and Python's [repr] of a [str] (used when a metadata dict is
    formatted).  [embed_text] is a function of the text alone. *)
Class Capabilities := {
  Vec : Type;
  Score : Type;
  embed_text : string -> exn + Vec;
  vec_len : Vec -> nat;
  l2_distance : Vec -> Vec -> Score;
  score_le : Score -> Score -> bool;
  py_repr : string -> string
}.

(** The order on distances is a total preorder. *)
Class ScoreOrder `{Capabilities} : Prop := {
  score_le_total : forall a b, score_le a b = true \/ score_le b a = true;
  score_le_trans : forall a b c,
    score_le a b = true -> score_le b c = true -> score_le a c = true
}.

(* ================================================================== *)
(** ** The FAISS vector store of langchain *)
(* ================================================================== *)

Section Store.
Context `{Cap : Capabilities}.

(** [langchain_community.vectorstores.FAISS]: a flat L2 index of dimension
    [index_d] holding [index_vectors] in insertion order, the in-memory
    docstore, and the dict from index positions to docstore ids. *)
Record FAISS := mkFAISS {
  index_d : nat;
  index_vectors : list Vec;
  docstore : gmap string Document;
  index_to_docstore_id : gmap nat string
}.

(** [FAISS(embedding_function, index=IndexFlatL2(d),
          docstore=InMemoryDocstore(), index_to_docstore_id={})]. *)
Definition FAISS_new (d : nat) : FAISS :=
  {| index_d := d; index_vectors := []; docstore := ∅;
     index_to_docstore_id := ∅ |}.

(** One formatted search hit. *)
Record SearchResult := mkSearchResult {
  content : string;
  result_metadata : metadata;
  similarity_score : Score
}.

(* ------------------------------------------------------------------ *)
(** *** The world: file system, UUID source, call log *)
(* ------------------------------------------------------------------ *)

(** File-system operations that can fail for reasons outside the model
    (permissions, full disk, damaged file). *)
Inductive io_op :=
| OpRead (path : string)
| OpMakedirs (path : string)
| OpLoad (path : string)
| OpSave (path : string)
| OpListdir (path : string).

(** Calls to the collaborators, most recent first. *)
Inductive call :=
| CallEmbed (text : string)
| CallLoad (path : string)
| CallSave (path : string)
| CallNearest (n : nat)
| CallGenerate (input thread_id : string).

(** The file system is keyed by the path texts the code builds: two
    different texts are two different places.  An operation fails when
    [fault] names an exception for it, and otherwise as the contents of
    the file system dictate. *)
Record World := mkWorld {
  files : gmap string string;       (* regular files and their text *)
  dirs : gset string;               (* plain directories *)
  indexes : gmap string FAISS;      (* folders written by [save_local] *)
  fault : io_op -> option exn;      (* operations that fail, and how *)
  uuid_source : nat -> string;      (* the n-th value of [str(uuid4())] *)
  uuid_count : nat;                 (* values already drawn *)
  clock : Z;                        (* [time.time()] *)
  calls : list call
}.

Definition set_dirs (d : gset string) (w : World) : World :=
  {| files := files w; dirs := d; indexes := indexes w; fault := fault w;
     uuid_source := uuid_source w; uuid_count := uuid_count w;
     clock := clock w; calls := calls w |}.

Definition set_indexes (ix : gmap string FAISS) (w : World) : World :=
  {| files := files w; dirs := dirs w; indexes := ix; fault := fault w;
     uuid_source := uuid_source w; uuid_count := uuid_count w;
     clock := clock w; calls := calls w |}.

Definition set_uuid_count (n : nat) (w : World) : World :=
  {| files := files w; dirs := dirs w; indexes := indexes w; fault := fault w;
     uuid_source := uuid_source w; uuid_count := n;
     clock := clock w; calls := calls w |}.

Definition log (c : call) (w : World) : World :=
  {| files := files w; dirs := dirs w; indexes := indexes w; fault := fault w;
     uuid_source := uuid_source w; uuid_count := uuid_count w;
     clock := clock w; calls := c :: calls w |}.

(** Computations that read and change the world and may raise. *)
Definition M (A : Type) : Type := World -> outcome A * World.

Definition ret {A} (a : A) : M A := fun w => (Returned a, w).
Definition raise {A} (e : exn) : M A := fun w => (Raised e, w).
Definition bind {A B} (m : M A) (k : A -> M B) : M B :=
  fun w => match m w with
           | (Returned a, w') => k a w'
           | (Raised e, w') => (Raised e, w')
           end.
(** [try: m except Exception as e: h e]. *)
Definition try_except {A} (m : M A) (h : exn -> M A) : M A :=
  fun w => match m w with
           | (Returned a, w') => (Returned a, w')
           | (Raised e, w') => h e w'
           end.

End Store.

Notation "'do' x <- m ;; k" := (bind m (fun x => k))
  (at level 10, x name, m at level 99, k at level 200).

(* ================================================================== *)
(** ** Library calls used by [embedding2.py] *)
(* ================================================================== *)

Section Embedding2.
Context `{Cap : Capabilities}.

(** [os.path.exists(p)]: never raises. *)
Definition path_exists (p : string) (w : World) : bool :=
  bool_decide (is_Some (files w !! p))
  || bool_decide (p ∈ dirs w)
  || bool_decide (is_Some (indexes w !! p)).

Definition os_path_exists (p : string) : M bool :=
  fun w => (Returned (path_exists p w), w).

(** [open(p, 'r', encoding='utf-8').read()]: what exists at [p] without
    being a regular file is a directory. *)
Definition read_text (p : string) : M string :=
  fun w =>
    match fault w (OpRead p) with
    | Some e => (Raised e, w)
    | None =>
        match files w !! p with
        | Some text => (Returned text, w)
        | None =>
            (Raised (Exn "IsADirectoryError"
                       ("[Errno 21] Is a directory: '" +:+ p +:+ "'")), w)
        end
    end.

(** [os.makedirs(p, exist_ok=True)]: fails on the empty path and when [p]
    exists as a regular file. *)
Definition makedirs (p : string) : M unit :=
  fun w =>
    match fault w (OpMakedirs p) with
    | Some e => (Raised e, w)
    | None =>
        if negb (Py.truthy p) then
          (Raised (Exn "FileNotFoundError"
                     "[Errno 2] No such file or directory: ''"), w)
        else if bool_decide (is_Some (files w !! p)) then
          (Raised (Exn "FileExistsError"
                     ("[Errno 17] File exists: '" +:+ p +:+ "'")), w)
        else (Returned tt, set_dirs ({[ p ]} ∪ dirs w) w)
    end.

(** [FAISS.load_local(p, embeddings, allow_dangerous_deserialization=True)]. *)
Definition load_local (p : string) : M FAISS :=
  fun w =>
    let w := log (CallLoad p) w in
    match fault w (OpLoad p) with
    | Some e => (Raised e, w)
    | None =>
        match indexes w !! p with
        | Some vs => (Returned vs, w)
        | None =>
            (Raised (Exn "RuntimeError"
                       ("could not open " +:+ p
                          +:+ "/index.faiss for reading")),
             w)
        end
    end.

(** [vector_store.save_local(p)]: creates the folder and writes the index
    and the pickled docstore.  A fault of [OpSave p] stands for a save
    that fails before its first write; the state a write failing half-way
    leaves behind (a new folder, an index file without its docstore) is
    not represented. *)
Definition save_local (p : string) (vs : FAISS) : M unit :=
  fun w =>
    let w := log (CallSave p) w in
    match fault w (OpSave p) with
    | Some e => (Raised e, w)
    | None =>
        if bool_decide (is_Some (files w !! p)) then
          (Raised (Exn "FileExistsError"
                     ("[Errno 17] File exists: '" +:+ p +:+ "'")), w)
        else (Returned tt, set_indexes (<[p := vs]> (indexes w)) w)
    end.

(** [str(uuid4())]. *)
Definition uuid4 : M string :=
  fun w => (Returned (uuid_source w (uuid_count w)),
            set_uuid_count (S (uuid_count w)) w).

(** [embeddings.embed_query(text)]; [embed_documents([text])] is the same
    request. *)
Definition embed_query (text : string) : M Vec :=
  fun w =>
    match embed_text text with
    | inr v => (Returned v, log (CallEmbed text) w)
    | inl e => (Raised e, log (CallEmbed text) w)
    end.

(** The store after [__add] of one document: the vector goes to the end
    of the index, the document (now carrying its id) into the docstore,
    and the next position, [len(index_to_docstore_id)], maps to the id. *)
Definition FAISS_add (vs : FAISS) (id : string) (document : Document)
    (v : Vec) : FAISS :=
  let starting_len := size (index_to_docstore_id vs) in
  {| index_d := index_d vs;
     index_vectors := index_vectors vs ++ [v];
     docstore :=
       <[id := mkDocument (Some id) (page_content document)
                          (doc_metadata document)]> (docstore vs);
     index_to_docstore_id :=
       <[starting_len := id]> (index_to_docstore_id vs) |}.

(** [vector_store.add_documents(documents=[document], ids=[id])]: embeds
    the text, adds the vector to the index (the dimensions must agree) and
    the document to the docstore (the id must be new). *)
Definition add_documents (vs : FAISS) (document : Document) (id : string)
  : M FAISS :=
  do v <- embed_query (page_content document) ;;
  if negb (vec_len v =? index_d vs)%nat then
    raise (Exn "AssertionError" "")
  else if bool_decide (is_Some (docstore vs !! id)) then
    raise (Exn "ValueError" ("Tried to add ids that already exist: " +:+ id))
  else ret (FAISS_add vs id document v).

(** Ranking of two (position, distance) pairs. *)
Definition closer (a b : nat * Score) : Prop := score_le a.2 b.2 = true.

#[global] Instance closer_dec a b : Decision (closer a b).
Proof. unfold closer. apply _. Defined.

(** [index.search(q, n)]: the [n] nearest positions by increasing
    distance (positions past the end, reported as -1, are left out). *)
Definition index_search (vs : FAISS) (q : Vec) (n : nat)
  : list (nat * Score) :=
  firstn n (merge_sort closer
              (imap (fun i v => (i, l2_distance q v)) (index_vectors vs))).

(** The filter function of a dict filter with plain values:
    [all(metadata.get(key) == value)]. *)
Definition filter_matches (filter_dict : list (string * string))
    (m : metadata) : bool :=
  forallb (fun kv => bool_decide (metadata_get kv.1 m = Some kv.2))
          filter_dict.

(** The loop of [similarity_search_with_score_by_vector] over the hits. *)
Fixpoint collect_hits (vs : FAISS) (filter_dict : list (string * string))
    (hits : list (nat * Score)) : exn + list (Document * Score) :=
  match hits with
  | [] => inr []
  | (i, score) :: rest =>
      match index_to_docstore_id vs !! i with
      | None => inl (Exn "KeyError" (pretty i))
      | Some _id =>
          match docstore vs !! _id with
          | None =>
              inl (Exn "ValueError"
                       ("Could not find document for id " +:+ _id))
          | Some doc =>
              match collect_hits vs filter_dict rest with
              | inl e => inl e
              | inr docs =>
                  inr (if filter_matches filter_dict (doc_metadata doc)
                       then (doc, score) :: docs else docs)
              end
          end
      end
  end.

Definition fetch_k : nat := 20.

(** [vector_store.similarity_search_with_score(query, k=k, filter=f)] with
    a filter: the [fetch_k] nearest are fetched, filtered, and cut to [k]. *)
Definition similarity_search_with_score (vs : FAISS) (query : string)
    (k : Z) (filter_dict : list (string * string))
  : M (list (Document * Score)) :=
  do q <- embed_query query ;;
  fun w =>
    let w := log (CallNearest fetch_k) w in
    if negb (vec_len q =? index_d vs)%nat then
      (Raised (Exn "AssertionError" ""), w)
    else match collect_hits vs filter_dict (index_search vs q fetch_k) with
         | inl e => (Raised e, w)
         | inr docs => (Returned (Py.slice_to k docs), w)
         end.

(** [docstore.search(id)]: the document, or a message when it is absent. *)
Definition docstore_search (vs : FAISS) (id : string) : string + Document :=
  match docstore vs !! id with
  | Some doc => inr doc
  | None => inl ("ID " +:+ id +:+ " not found.")
  end.

(** Size in bytes of a text written as UTF-8. *)
Fixpoint utf8_size (s : string) : nat :=
  match s with
  | EmptyString => 0%nat
  | String a s' =>
      ((if (N_of_ascii a <? 128)%N then 1 else 2) + utf8_size s')%nat
  end.

Fixpoint is_prefix (a b : string) : bool :=
  match a, b with
  | EmptyString, _ => true
  | String x a', String y b' => Ascii.eqb x y && is_prefix a' b'
  | String _ _, EmptyString => false
  end.

(** [p] is [os.path.join(d, f)] for an entry name [f] of [d]. *)
Definition is_entry_of (d p : string) : bool :=
  let base := if negb (Py.truthy d) || Py.endswith_char Py.sep d
              then d else d +:+ "/" in
  let f := Py.drop (String.length base) p in
  is_prefix base p && Py.truthy f && (Py.rfind Py.sep f =? -1).

(** [sum(os.path.getsize(os.path.join(d, f)) for f in os.listdir(d)
         if os.path.isfile(os.path.join(d, f)))]. *)
Definition directory_size (d : string) : M nat :=
  fun w =>
    match fault w (OpListdir d) with
    | Some e => (Raised e, w)
    | None =>
        if negb (bool_decide (d ∈ dirs w)
                 || bool_decide (is_Some (indexes w !! d))) then
          (Raised (Exn "FileNotFoundError"
                     ("[Errno 2] No such file or directory: '" +:+ d +:+ "'")),
           w)
        else
          (Returned (map_fold (fun p text acc =>
                                 if is_entry_of d p
                                 then (acc + utf8_size text)%nat
                                 else acc) 0%nat (files w)), w)
    end.

End Embedding2.

(* ================================================================== *)
(** ** [embedding2.py] *)
(* ================================================================== *)

Section Embedding2Functions.
Context `{Cap : Capabilities}.

(** The dictionaries returned by the three functions, one constructor per
    shape; [status_of_*] is the value under their ["status"] key. *)
Inductive StoreResponse :=
| StoreError (error message : string)
| StoreSuccess (document_id user_id data_source storage_path message : string).

Inductive SearchResponse :=
| SearchError (error : option string) (message : string)
| SearchSuccess (user_id query : string) (results : list SearchResult)
                (total_results : nat).

Inductive InfoResponse :=
| InfoError (error : option string) (message : string)
| InfoSuccess (user_id : string) (total_documents : nat)
              (storage_path : string) (data_sources : gmap string nat)
              (directory_size : nat).

Definition status_of_store (r : StoreResponse) : string :=
  match r with
  | StoreError _ _ => "error"
  | StoreSuccess _ _ _ _ _ => "success"
  end.

Definition status_of_search (r : SearchResponse) : string :=
  match r with
  | SearchError _ _ => "error"
  | SearchSuccess _ _ _ _ => "success"
  end.

Definition status_of_info (r : InfoResponse) : string :=
  match r with
  | InfoError _ _ => "error"
  | InfoSuccess _ _ _ _ _ => "success"
  end.

Definition default_save_path : string := "user_embeddings".

(** [os.path.join(save_path, str(user_id))]. *)
Definition user_dir_of (save_path user_id : string) : string :=
  OsPath.join save_path user_id.

(** [os.path.join(user_dir, f"{user_id}_faiss_index")]. *)
Definition vector_store_path_of (save_path user_id : string) : string :=
  OsPath.join (user_dir_of save_path user_id) (user_id +:+ "_faiss_index").

(** The document built by [store_user_embedding]. *)
Definition new_document (text_content data_source user_id file_path : string)
  : Document :=
  mkDocument None text_content
    [("source", data_source); ("user_id", user_id); ("filename", file_path)].

(** The data source taken from the file name when none is given. *)
Definition data_source_of (file_path : string) (data_source : option string)
  : string :=
  match data_source with
  | Some d => d
  | None =>
      let file_extension :=
        Py.remove_char Py.extsep (Py.lower (OsPath.splitext file_path).2) in
      if Py.truthy file_extension then file_extension
      else OsPath.basename file_path
  end.

Definition store_user_embedding (file_path user_id : string)
    (data_source : option string) (save_path : string) : M StoreResponse :=
  let data_source := data_source_of file_path data_source in
  do file_found <- os_path_exists file_path ;;
  if negb file_found then
    ret (StoreError ("File not found: " +:+ file_path)
                    ("Failed to find file " +:+ file_path))
  else
  do read <- try_except
               (do text <- read_text file_path ;; ret (inr text))
               (fun e =>
                  ret (inl (StoreError
                              ("Error reading file " +:+ file_path +:+ ": "
                                 +:+ str_of_exn e)
                              ("Failed to read file " +:+ file_path)))) ;;
  match read with
  | inl failure => ret failure
  | inr text_content =>
      let user_dir := user_dir_of save_path user_id in
      do _ <- makedirs user_dir ;;
      let vector_store_path := vector_store_path_of save_path user_id in
      let document := new_document text_content data_source user_id file_path in
      try_except
        (do index_found <- os_path_exists vector_store_path ;;
         do vector_store <-
           (if index_found then load_local vector_store_path
            else do probe <- embed_query "hello world" ;;
                 ret (FAISS_new (vec_len probe))) ;;
         do doc_id <- uuid4 ;;
         do vector_store <- add_documents vector_store document doc_id ;;
         do _ <- save_local vector_store_path vector_store ;;
         ret (StoreSuccess doc_id user_id data_source vector_store_path
                ("Successfully stored embedding for user " +:+ user_id)))
        (fun e =>
           ret (StoreError (str_of_exn e)
                  ("Failed to store embedding for user " +:+ user_id)))
  end.

(** [{"user_id": user_id}], with ["source"] added when [filter_source] is
    truthy. *)
Definition filter_dict_of (user_id : string) (filter_source : option string)
  : list (string * string) :=
  match filter_source with
  | Some src => if Py.truthy src then [("user_id", user_id); ("source", src)]
                else [("user_id", user_id)]
  | None => [("user_id", user_id)]
  end.

Definition format_result (hit : Document * Score) : SearchResult :=
  {| content := page_content hit.1;
     result_metadata := doc_metadata hit.1;
     similarity_score := hit.2 |}.

Definition search_user_embeddings (query_text user_id : string) (k : Z)
    (filter_source : option string) (save_path : string) : M SearchResponse :=
  let vector_store_path := vector_store_path_of save_path user_id in
  do index_found <- os_path_exists vector_store_path ;;
  if negb index_found then
    ret (SearchError None ("No embeddings found for user " +:+ user_id))
  else
    try_except
      (do vector_store <- load_local vector_store_path ;;
       let filter_dict := filter_dict_of user_id filter_source in
       do results <-
         similarity_search_with_score vector_store query_text k filter_dict ;;
       let formatted_results := map format_result results in
       ret (SearchSuccess user_id query_text formatted_results
              (length formatted_results)))
      (fun e =>
         ret (SearchError (Some (str_of_exn e))
                ("Failed to search embeddings for user " +:+ user_id))).

(** The first loop of [get_user_info]: [docstore.search] answers with a
    message (a non-empty string, hence truthy) for an id it does not hold. *)
Definition found_truthy (d : string + Document) : bool :=
  match d with inl msg => Py.truthy msg | inr _ => true end.

Definition all_docs_of (vs : FAISS) : list (string + Document) :=
  filter (fun d => found_truthy d = true)
         (map (fun entry => docstore_search vs entry.2)
              (map_to_list (index_to_docstore_id vs))).

(** The second loop: [doc.metadata] of a message raises. *)
Fixpoint count_sources (all_docs : list (string + Document))
    (sources : gmap string nat) : exn + gmap string nat :=
  match all_docs with
  | [] => inr sources
  | inl _ :: _ =>
      inl (Exn "AttributeError" "'str' object has no attribute 'metadata'")
  | inr doc :: rest =>
      let source :=
        default "unknown" (metadata_get "source" (doc_metadata doc)) in
      count_sources rest
        (<[source := (default 0%nat (sources !! source) + 1)%nat]> sources)
  end.

Definition get_user_info (user_id save_path : string) : M InfoResponse :=
  let user_dir := user_dir_of save_path user_id in
  let vector_store_path := vector_store_path_of save_path user_id in
  do index_found <- os_path_exists vector_store_path ;;
  if negb index_found then
    ret (InfoError None ("No embeddings found for user " +:+ user_id))
  else
    try_except
      (do vector_store <- load_local vector_store_path ;;
       let all_docs := all_docs_of vector_store in
       match count_sources all_docs ∅ with
       | inl e => raise e
       | inr sources =>
           do size <- directory_size user_dir ;;
           ret (InfoSuccess user_id (length all_docs) vector_store_path
                  sources size)
       end)
      (fun e =>
         ret (InfoError (Some (str_of_exn e))
                ("Failed to get info for user " +:+ user_id))).

End Embedding2Functions.

(* ================================================================== *)
(** ** [rag.py] *)
(* ================================================================== *)

Definition nl : string := String (ascii_of_nat 10) EmptyString.

Section Rag.
Context `{Cap : Capabilities}.

(** The thread id of [get_user_config]. *)
Definition get_user_config (user_id : string) : string := "user_" +:+ user_id.

(** [str(metadata)] of a dict of strings. *)
Definition metadata_str (m : metadata) : string :=
  "{"
    +:+ Py.join ", " (map (fun kv => py_repr kv.1 +:+ ": " +:+ py_repr kv.2) m)
    +:+ "}".

Definition serialize_doc (doc : Document) : string :=
  "Source: " +:+ metadata_str (doc_metadata doc) +:+ nl
    +:+ "Content: " +:+ page_content doc.

Definition retrieve_context (query user_id : string)
  : M (string * list Document) :=
  do search_results <-
    search_user_embeddings query user_id 3 None default_save_path ;;
  match search_results with
  | SearchError _ message =>
      ret ("No documents found for user " +:+ user_id +:+ ": " +:+ message, [])
  | SearchSuccess _ _ results _ =>
      let retrieved_docs :=
        map (fun result =>
               mkDocument None (content result) (result_metadata result))
            results in
      let serialized :=
        Py.join (nl +:+ nl) (map serialize_doc retrieved_docs) in
      ret (serialized, retrieved_docs)
  end.

(** A streamed message: [msg_content] is [None] when the message has no
    [content] attribute. *)
Record Message := mkMessage { msg_content : option string }.

(** One streamed event: the value under ["messages"], when the key is
    present. *)
Record Event := mkEvent { ev_messages : option (list Message) }.

(** [agent.stream(input, stream_mode="values", config=config)]: the events
    it yields and the exception it ends with, if any.  The agent is built
    by [create_agent] from the chat model, [retrieve_context] and the
    system prompt; the code only iterates over what it yields. *)
Variable agent_stream :
  string -> string -> World -> (list Event * option exn) * World.

Definition fallback_answer : string :=
  "I apologize, but I couldn't generate a response. Please try again.".

(** One iteration of the loop of [ask_question]. *)
Definition collect_content (response_content : list string) (event : Event)
  : list string :=
  match ev_messages event with
  | Some messages =>
      if (0 <? length messages)%nat then
        match last messages with
        | Some last_message =>
            match msg_content last_message with
            | Some c => if Py.truthy c then response_content ++ [c]
                        else response_content
            | None => response_content
            end
        | None => response_content
        end
      else response_content
  | None => response_content
  end.

(** The prompt built from the query and the user id. *)
Definition enhanced_query_of (query user_id : string) : string :=
  "User '" +:+ user_id +:+ "' is asking: " +:+ query
    +:+ ". Please retrieve and analyze their relevant documents.".

Definition ask_question (query user_id : string) : M string :=
  fun w =>
    let enhanced_query := enhanced_query_of query user_id in
    let config := get_user_config user_id in
    match agent_stream enhanced_query config w with
    | ((events, raised), w') =>
        let response_content := fold_left collect_content events [] in
        match raised with
        | Some e => (Raised e, w')
        | None =>
            (Returned (match last response_content with
                       | Some answer => answer
                       | None => fallback_answer
                       end), w')
        end
    end.

(* ================================================================== *)
(** ** [app.py] *)
(* ================================================================== *)

Record NexusFlowRequest := mkRequest {
  req_user_id : string;
  req_query : string
}.

Inductive HTTPException :=
| mkHTTPException (status_code : nat) (detail : string).

Record AskResponse := mkAskResponse {
  response : string;
  response_status_code : nat;
  response_query : string;
  response_user_id : string;
  timestamp : Z
}.

(** [POST /chat/agent]: [inl] is the [HTTPException] the handler raises. *)
Definition ask_question_endpoint (request : NexusFlowRequest)
  : World -> (HTTPException + AskResponse) * World :=
  fun w =>
    if negb (Py.truthy (req_query request))
       || String.eqb (Py.strip (req_query request)) "" then
      (inl (mkHTTPException 400 "Query cannot be empty"), w)
    else if negb (Py.truthy (req_user_id request))
            || String.eqb (Py.strip (req_user_id request)) "" then
      (inl (mkHTTPException 400 "User ID cannot be empty"), w)
    else
      match ask_question (req_query request) (req_user_id request) w with
      | (Returned answer, w') =>
          (inr {| response := answer;
                  response_status_code := 200;
                  response_query := req_query request;
                  response_user_id := req_user_id request;
                  timestamp := clock w' |}, w')
      | (Raised e, w') =>
          (inl (mkHTTPException 500
                  ("Error processing query: " +:+ str_of_exn e)), w')
      end.

End Rag.

(* ================================================================== *)
(** ** A small concrete environment *)
(* ================================================================== *)

(** One-dimensional embeddings: a text is embedded as its length, the
    metric is the squared difference, and the service rejects the empty
    text.  Used to run the code on concrete inputs. *)
Definition length_capabilities : Capabilities :=
  {| Vec := Z;
     Score := Z;
     embed_text := fun text =>
       if Py.truthy text then inr (Z.of_nat (String.length text))
       else inl (Exn "BadRequestError" "empty input");
     vec_len := fun _ => 1%nat;
     l2_distance := fun a b => (a - b) * (a - b);
     score_le := Z.leb;
     py_repr := fun s => "'" +:+ s +:+ "'" |}.

Definition numbered_uuid (n : nat) : string :=
  "00000000-0000-4000-8000-" +:+ pretty n.

(** A world with the given text files and nothing else; no operation
    fails. *)
Definition world_with `{Cap : Capabilities} (fs : list (string * string)) : World :=
  {| files := list_to_map fs; dirs := ∅; indexes := ∅;
     fault := fun _ => None;
     uuid_source := numbered_uuid; uuid_count := 0;
     clock := 0; calls := [] |}.

(** Two text files to store. *)
Definition two_files : list (string * string) :=
  [("a.txt", "hello"); ("b.TXT", "passport A1234567")].

(** The worlds after user alice stored the first file, and then the
    second, under the default base path. *)
Definition alice_world_1 : World :=
  (store_user_embedding (Cap := length_capabilities)
     "a.txt" "alice" None default_save_path
     (world_with (Cap := length_capabilities) two_files)).2.

Definition alice_world : World :=
  (store_user_embedding (Cap := length_capabilities)
     "b.TXT" "alice" None default_save_path alice_world_1).2.

(** The world after user ["a"] stored a file under the base path
    ["user_embeddings/a/a"]: the index is saved at
    ["user_embeddings/a/a/a/a_faiss_index"], which is also the index path
    of user ["a/a"] under the default base path. *)
Definition shared_path_world : World :=
  (store_user_embedding (Cap := length_capabilities)
     "a.txt" "a" None "user_embeddings/a/a"
     (world_with (Cap := length_capabilities) two_files)).2.

(** An agent that asks the model once per call and streams the given
    events. *)
Definition scripted_agent `{Cap : Capabilities} (events : list Event)
    (input thread_id : string) (w : World)
  : (list Event * option exn) * World :=
  ((events, None), log (CallGenerate input thread_id) w).

(** A stream of four states: the question, a tool call without text, the
    tool result, the answer. *)
Definition passport_stream : list Event :=
  let human := mkMessage (Some (enhanced_query_of "passport?" "alice")) in
  let tool_call := mkMessage (Some "") in
  let tool_result := mkMessage (Some "Content: passport A1234567") in
  let answer := mkMessage (Some "Your passport number is A1234567.") in
  [ mkEvent (Some [human]);
    mkEvent (Some [human; tool_call]);
    mkEvent (Some [human; tool_call; tool_result]);
    mkEvent (Some [human; tool_call; tool_result; answer]) ].

(** A world where the path of bob's directory is taken by a regular
    file. *)
Definition blocked_world : World :=
  world_with (Cap := length_capabilities)
    [("doc.txt", "hello"); ("user_embeddings/bob", "not a directory")].

(* ================================================================== *)
(** ** Notions used by the properties *)
(* ================================================================== *)

Section Notions.
Context `{Cap : Capabilities}.

(** Two worlds with the same durable storage and the same failing
    operations. *)
Definition same_storage (w1 w2 : World) : Prop :=
  files w1 = files w2 /\ dirs w1 = dirs w2 /\ indexes w1 = indexes w2
  /\ fault w1 = fault w2.

(** Results in order of increasing distance. *)
Definition by_distance (a b : SearchResult) : Prop :=
  score_le (similarity_score a) (similarity_score b) = true.

Definition hit_by_distance (a b : Document * Score) : Prop :=
  score_le a.2 b.2 = true.

(** The invariant langchain keeps on a store: the positions of the index
    are the keys [0 .. n-1] of [index_to_docstore_id], and every id it
    names is in the docstore. *)
Definition wf_store (vs : FAISS) : Prop :=
  length (index_vectors vs) = size (index_to_docstore_id vs)
  /\ (forall i, is_Some (index_to_docstore_id vs !! i)
                <-> (i < size (index_to_docstore_id vs))%nat)
  /\ (forall i id, index_to_docstore_id vs !! i = Some id ->
                   is_Some (docstore vs !! id)).

(** The serialization in the words of the specification: one block
    "Source: <metadata>\nContent: <content>" per result, in ranked order,
    with a blank line between two blocks. *)
Definition block_spec (hit : Document * Score) : string :=
  "Source: " +:+ metadata_str (doc_metadata hit.1) +:+ nl
    +:+ "Content: " +:+ page_content hit.1.

Fixpoint blocks_spec (hits : list (Document * Score)) : string :=
  match hits with
  | [] => ""
  | [hit] => block_spec hit
  | hit :: rest => block_spec hit +:+ nl +:+ nl +:+ blocks_spec rest
  end.

(** The documents handed to the agent next to the serialized text. *)
Definition documents_spec (hits : list (Document * Score)) : list Document :=
  map (fun hit => mkDocument None (page_content hit.1) (doc_metadata hit.1))
      hits.

(** A text that reads as a "no documents found" message. *)
Definition no_documents_message (s : string) : Prop :=
  is_prefix "No documents found" s = true.

(** Soft-fail retrieval as the specification states it: on an error of
    the search and on zero results alike, the context is a "no documents
    found" message and the document sequence is empty. *)
Definition soft_fail_as_stated : Prop :=
  forall (q u : string) (w : World) (r : SearchResponse) (w1 : World),
    search_user_embeddings q u 3 None default_save_path w
    = (Returned r, w1) ->
    (status_of_search r = "error"
     \/ exists u' q' n, r = SearchSuccess u' q' [] n) ->
    exists message w',
      retrieve_context q u w = (Returned (message, []), w')
      /\ no_documents_message message.


(** A text that is empty or made of white space only. *)
Fixpoint all_space (s : string) : bool :=
  match s with
  | EmptyString => true
  | String a s' => Py.isspace a && all_space s'
  end.

(** The message each event of a stream ends with. *)
Definition streamed_messages (events : list Event) : list Message :=
  omap (fun event => ev_messages event ≫= last) events.

(** A message with a content that is not empty. *)
Definition has_content (m : Message) : bool :=
  match msg_content m with
  | Some c => Py.truthy c
  | None => false
  end.

(** The content of the last streamed message that has one. *)
Definition last_content (events : list Event) : option string :=
  last (filter (fun m => has_content m = true) (streamed_messages events))
    ≫= msg_content.

(** Every saved index of a world is well formed. *)
Definition wf_world (w : World) : Prop :=
  forall p vs, indexes w !! p = Some vs -> wf_store vs.

(** Every id named by [index_to_docstore_id] is in the docstore. *)
Definition ids_present (vs : FAISS) : Prop :=
  forall i id, index_to_docstore_id vs !! i = Some id ->
               is_Some (docstore vs !! id).

(** [total_documents] as [get_user_info] reports it, when it reports
    one. *)
Definition total_documents_of (user_id save_path : string) (w : World)
  : option nat :=
  match (get_user_info user_id save_path w).1 with
  | Returned (InfoSuccess _ n _ _ _) => Some n
  | _ => None
  end.

(** What [get_user_info] needs to report [n] documents: the saved store
    loads, names only documents it holds, and the user's directory can be
    listed. *)
Definition reports (user_id save_path : string) (w : World) (n : nat)
  : Prop :=
  let p := vector_store_path_of save_path user_id in
  let d := user_dir_of save_path user_id in
  exists vs,
    indexes w !! p = Some vs /\ fault w (OpLoad p) = None
    /\ ids_present vs
    /\ fault w (OpListdir d) = None
    /\ (d ∈ dirs w \/ is_Some (indexes w !! d))
    /\ n = size (index_to_docstore_id vs).

(** The operations of the storage layer and of the retrieval tool. *)
Inductive operation :=
| DoStore (file_path user_id : string) (data_source : option string)
          (save_path : string)
| DoSearch (query_text user_id : string) (k : Z)
           (filter_source : option string) (save_path : string)
| DoInfo (user_id save_path : string)
| DoRetrieve (query user_id : string).

(** The world an operation leaves behind, whatever its outcome. *)
Definition run (op : operation) (w : World) : World :=
  match op with
  | DoStore fp u ds sp => (store_user_embedding fp u ds sp w).2
  | DoSearch q u k fs sp => (search_user_embeddings q u k fs sp w).2
  | DoInfo u sp => (get_user_info u sp w).2
  | DoRetrieve q u => (retrieve_context q u w).2
  end.

(** The worlds the operations can build, starting with no saved index. *)
Inductive reachable : World -> Prop :=
| reachable_start w : indexes w = ∅ -> reachable w
| reachable_run op w : reachable w -> reachable (run op w).

End Notions.


(* ================================================================== *)
(** ** The rest of [rag.py], and notions for further properties *)
(* ================================================================== *)

(** [get_conversation_summary(user_id)]. *)
Definition get_conversation_summary (user_id : string) : string :=
  "Conversation thread: user_" +:+ user_id
    +:+ " - CapAmerica product catalog inquiry".

(** A world with one empty text file. *)
Definition empty_file_world : World :=
  world_with (Cap := length_capabilities) [("empty.txt", "")].

(** A saved index for user bob whose position table names a document id
    that its docstore does not hold, and a world holding it. *)
Definition dangling_store : @FAISS length_capabilities :=
  @mkFAISS length_capabilities 1 [5] ∅ {[ 0%nat := "gone" ]}.

Definition dangling_world : World :=
  set_indexes (Cap := length_capabilities)
    {[ "user_embeddings/bob/bob_faiss_index" := dangling_store ]}
    (world_with (Cap := length_capabilities) []).

Section MoreNotions.
Context `{Cap : Capabilities}.

(** The key under which [get_user_info] counts a document:
    [doc.metadata.get('source', 'unknown')]. *)
Definition doc_source (doc : Document) : string :=
  default "unknown" (metadata_get "source" (doc_metadata doc)).

(** How many documents of a list count under the source [s]. *)
Fixpoint count_source (s : string) (docs : list (string + Document)) : nat :=
  match docs with
  | [] => 0%nat
  | inr doc :: rest =>
      ((if String.eqb (doc_source doc) s then 1 else 0)
       + count_source s rest)%nat
  | inl _ :: rest => count_source s rest
  end.

(** The sum of the counts of a histogram. *)
Definition histogram_total (m : gmap string nat) : nat :=
  map_fold (fun _ n acc => (n + acc)%nat) 0%nat m.

(** The call log of [w'] is that of [w] with [new] put in front (the most
    recent call first). *)
Definition calls_since (w w' : World) (new : list call) : Prop :=
  calls w' = (new ++ calls w)%list.

End MoreNotions.

(* ================================================================== *)
(** ** The agent of [rag.py] as a loop around a chat model *)
(* ================================================================== *)

Section Agent.
Context `{Cap : Capabilities}.












End Agent.





(* ================================================================== *)
(** * Properties *)
(* ================================================================== *)

(** ** The string primitives on examples *)

Example splitext_txt : OsPath.splitext "dir/a.b.TXT" = ("dir/a.b", ".TXT").
Proof. reflexivity. Qed.

Example splitext_hidden : OsPath.splitext "dir/.bashrc" = ("dir/.bashrc", "").
Proof. reflexivity. Qed.

Example join_absolute : OsPath.join "user_embeddings" "/etc" = "/etc".
Proof. reflexivity. Qed.

Example strip_both_ends : Py.strip "  a b  " = "a b".
Proof. reflexivity. Qed.

Example data_source_from_extension :
  data_source_of "2022-05-MAY-PASSPORT-POLVERARIGI.TXT" None = "txt"
  /\ data_source_of "notes" None = "notes"
  /\ data_source_of "notes.txt" (Some "passport") = "passport".
Proof. repeat split. Qed.

Example vector_store_path_default :
  vector_store_path_of default_save_path "POLVERARIGI"
  = "user_embeddings/POLVERARIGI/POLVERARIGI_faiss_index".
Proof. reflexivity. Qed.

(** ** Unfolding the computations *)

Ltac unfold_M :=
  unfold bind, ret, raise, try_except, os_path_exists in *.

Ltac unfold_calls :=
  unfold load_local, save_local, makedirs, read_text, uuid4, embed_query,
    directory_size in *.

Section StorageFacts.
Context `{Cap : Capabilities}.

(** The three read-only fields of the world that decide every outcome are
    not touched by logging. *)
Lemma path_exists_log c p w : path_exists p (log c w) = path_exists p w.
Proof. reflexivity. Qed.

(** *** [search_user_embeddings] and [get_user_info] always return *)

Lemma similarity_search_never_changes_store vs q k f w o w' :
  similarity_search_with_score vs q k f w = (o, w') ->
  files w' = files w /\ dirs w' = dirs w /\ indexes w' = indexes w
  /\ fault w' = fault w /\ uuid_count w' = uuid_count w.
Proof.
  unfold similarity_search_with_score, embed_query. unfold_M.
  destruct (embed_text q) as [e|v]; simpl.
  - intros [= <- <-]. by repeat split.
  - destruct (negb _).
    + intros [= <- <-]. by repeat split.
    + destruct (collect_hits _ _ _); intros [= <- <-]; by repeat split.
Qed.

Lemma search_user_embeddings_returns q u k fs sp w :
  exists r w', search_user_embeddings q u k fs sp w = (Returned r, w')
    /\ (status_of_search r = "error" \/ status_of_search r = "success").
Proof.
  unfold search_user_embeddings. unfold_M.
  destruct (negb (path_exists _ w)); [eauto|].
  destruct (load_local _ w) as [[vs|e] w1]; [|eauto].
  destruct (similarity_search_with_score vs q k _ w1) as [[res|e] w2]; eauto.
Qed.

Lemma get_user_info_returns u sp w :
  exists r w', get_user_info u sp w = (Returned r, w')
    /\ (status_of_info r = "error" \/ status_of_info r = "success").
Proof.
  unfold get_user_info. unfold_M.
  destruct (negb (path_exists _ w)); [eauto|].
  destruct (load_local _ w) as [[vs|e] w1]; [|eauto].
  destruct (count_sources _ _) as [e|srcs]; [eauto|].
  destruct (directory_size _ w1) as [[sz|e] w2]; eauto.
Qed.

End StorageFacts.

Section Determinism.
Context `{Cap : Capabilities}.

Lemma same_storage_refl w : same_storage w w.
Proof. by repeat split. Qed.

Lemma same_storage_log c w : same_storage w (log c w).
Proof. by repeat split. Qed.

Lemma same_storage_trans w1 w2 w3 :
  same_storage w1 w2 -> same_storage w2 w3 -> same_storage w1 w3.
Proof.
  intros (?&?&?&?) (?&?&?&?). repeat split; congruence.
Qed.

Lemma path_exists_same_storage p w1 w2 :
  same_storage w1 w2 -> path_exists p w1 = path_exists p w2.
Proof.
  intros (Hf&Hd&Hi&_). unfold path_exists. by rewrite Hf, Hd, Hi.
Qed.

Lemma load_local_same_storage p w1 w2 :
  same_storage w1 w2 -> (load_local p w1).1 = (load_local p w2).1.
Proof.
  intros (_&_&Hi&Hflt). unfold load_local. simpl.
  rewrite Hflt, Hi. destruct (fault w2 _); [done|].
  by destruct (indexes w2 !! p).
Qed.

Lemma load_local_keeps_storage p w :
  same_storage w (load_local p w).2.
Proof.
  unfold load_local. simpl. destruct (fault w _); [by repeat split|].
  destruct (indexes w !! p); by repeat split.
Qed.

Lemma similarity_search_same_result vs q k f w1 w2 :
  (similarity_search_with_score vs q k f w1).1
  = (similarity_search_with_score vs q k f w2).1.
Proof.
  unfold similarity_search_with_score, embed_query. unfold_M.
  destruct (embed_text q) as [e|v]; simpl; [done|].
  destruct (negb _); [done|]. by destruct (collect_hits _ _ _).
Qed.

Lemma similarity_search_keeps_storage vs q k f w :
  same_storage w (similarity_search_with_score vs q k f w).2.
Proof.
  destruct (similarity_search_with_score vs q k f w) as [o w'] eqn:E.
  apply similarity_search_never_changes_store in E as (?&?&?&?&?).
  by repeat split.
Qed.

(** The answer of a search is a function of the durable storage. *)
Lemma search_same_storage q u k fs sp w1 w2 :
  same_storage w1 w2 ->
  (search_user_embeddings q u k fs sp w1).1
  = (search_user_embeddings q u k fs sp w2).1.
Proof.
  intros Hs. unfold search_user_embeddings. unfold_M.
  rewrite (path_exists_same_storage _ _ _ Hs).
  destruct (negb (path_exists _ w2)); [done|].
  pose proof (load_local_same_storage (vector_store_path_of sp u) _ _ Hs) as Hl.
  destruct (load_local _ w1) as [[vs1|e1] w1'],
           (load_local _ w2) as [[vs2|e2] w2'];
    simpl in Hl; simplify_eq; [|done].
  pose proof (similarity_search_same_result vs2 q k
                (filter_dict_of u fs) w1' w2') as Hr.
  destruct (similarity_search_with_score _ _ _ _ w1') as [[r1|x1] ?],
           (similarity_search_with_score _ _ _ _ w2') as [[r2|x2] ?];
    simpl in Hr; by simplify_eq.
Qed.

(** A search writes nothing to durable storage. *)
Lemma search_keeps_storage q u k fs sp w :
  same_storage w (search_user_embeddings q u k fs sp w).2.
Proof.
  unfold search_user_embeddings. unfold_M.
  destruct (negb (path_exists _ w)); [apply same_storage_refl|].
  pose proof (load_local_keeps_storage (vector_store_path_of sp u) w) as Hl.
  destruct (load_local _ w) as [[vs|e] w1]; simpl in Hl; [|done].
  pose proof (similarity_search_keeps_storage vs q k
                (filter_dict_of u fs) w1) as Hr.
  destruct (similarity_search_with_score _ _ _ _ w1) as [[r|x] w2];
    simpl in *; eauto using same_storage_trans.
Qed.

End Determinism.

(** C8 -- Deterministic search: a second call of [search_user_embeddings]
    with the same query, user, [k], source filter and base path, made
    right after a first one (so with no store in between), returns the same
    dictionary: the same results in the same order with the same scores,
    or the same error.  The embedding is a function of the text. *)
Theorem search_twice_same_results `{Cap : Capabilities}
    (q u : string) (k : Z) (fs : option string) (sp : string) (w : World) :
  (search_user_embeddings q u k fs sp
     (search_user_embeddings q u k fs sp w).2).1
  = (search_user_embeddings q u k fs sp w).1.
Proof.
  symmetry. apply search_same_storage, search_keeps_storage.
Qed.

(** ** Ranking *)

Section Ranking.
Context `{Cap : Capabilities} `{!ScoreOrder}.

#[local] Instance closer_total : Total closer.
Proof. intros a b. apply score_le_total. Qed.

#[local] Instance closer_trans : Transitive closer.
Proof. intros a b c. apply score_le_trans. Qed.

Lemma StronglySorted_firstn {A} (R : relation A) n l :
  StronglySorted R l -> StronglySorted R (firstn n l).
Proof.
  intros Hl. revert n. induction Hl as [|x l Hl IH Hx]; intros [|n]; simpl;
    try constructor; auto.
  apply Forall_forall. intros y Hy.
  rewrite Forall_forall in Hx. apply Hx.
  by apply (subseteq_take n l).
Qed.

Lemma index_search_sorted vs q n :
  StronglySorted closer (index_search vs q n).
Proof.
  unfold index_search. apply StronglySorted_firstn.
  apply StronglySorted_merge_sort; apply _.
Qed.

(** The hits kept by the loop are a sub-sequence of the ranked hits. *)
Lemma collect_hits_sorted vs f hits docs :
  StronglySorted closer hits ->
  collect_hits vs f hits = inr docs ->
  StronglySorted hit_by_distance docs
  /\ Forall (fun d => exists i, (i, d.2) ∈ hits) docs.
Proof.
  intros Hs. revert docs. induction Hs as [|[i s] hits Hs IH Hx];
    intros docs; simpl.
  - intros [= <-]. split; constructor.
  - destruct (index_to_docstore_id vs !! i) as [id|]; [|done].
    destruct (docstore vs !! id) as [doc|]; [|done].
    destruct (collect_hits vs f hits) as [e|rest]; [done|].
    destruct (IH rest eq_refl) as [IH1 IH2].
    assert (Forall (fun d => exists j, (j, d.2) ∈ (i, s) :: hits) rest)
      as IH2'.
    { eapply Forall_impl; [apply IH2|]. intros d [j Hj]. exists j. by right. }
    destruct (filter_matches f (doc_metadata doc)); intros [= <-].
    + split.
      * constructor; [done|]. apply Forall_forall. intros d Hd.
        rewrite Forall_forall in IH2.
        destruct (IH2 d Hd) as [j Hj].
        rewrite Forall_forall in Hx. apply (Hx _ Hj).
      * constructor; [|done]. exists i. by left.
    + by split.
Qed.

Lemma length_slice_to {A} (k : Z) (l : list A) :
  0 <= k -> (length (Py.slice_to k l) <= Z.to_nat k)%nat.
Proof.
  intros Hk. unfold Py.slice_to.
  destruct (0 <=? k) eqn:E; [|lia]. rewrite length_take. lia.
Qed.

Lemma slice_to_nonneg {A} (k : Z) (l : list A) :
  0 <= k -> Py.slice_to k l = firstn (Z.to_nat k) l.
Proof. intros Hk. unfold Py.slice_to. destruct (0 <=? k) eqn:E; [done|lia]. Qed.

Lemma similarity_search_ranked vs q k f w docs w' :
  0 <= k ->
  similarity_search_with_score vs q k f w = (Returned docs, w') ->
  (length docs <= Z.to_nat k)%nat /\ StronglySorted hit_by_distance docs.
Proof.
  intros Hk. unfold similarity_search_with_score, embed_query. unfold_M.
  destruct (embed_text q) as [e|v]; simpl; [done|].
  destruct (negb _); [done|].
  destruct (collect_hits _ _ _) as [e|ds] eqn:E; [done|].
  intros [= <- <-]. split; [by apply length_slice_to|].
  rewrite slice_to_nonneg by done. apply StronglySorted_firstn.
  eapply collect_hits_sorted; [|exact E]. apply index_search_sorted.
Qed.

Lemma format_results_sorted docs :
  StronglySorted hit_by_distance docs ->
  StronglySorted by_distance (map format_result docs).
Proof.
  induction 1 as [|d docs Hs IH Hd]; simpl; constructor; [done|].
  apply Forall_forall. intros r Hr.
  apply list_elem_of_fmap in Hr as (d' & -> & Hd').
  rewrite Forall_forall in Hd. by apply Hd.
Qed.

End Ranking.

(** ** Searching a well-formed store succeeds *)

Section SearchSucceeds.
Context `{Cap : Capabilities}.

Lemma index_search_positions vs q n i s :
  (i, s) ∈ index_search vs q n -> (i < length (index_vectors vs))%nat.
Proof.
  unfold index_search. intros Hin.
  apply (subseteq_take n) in Hin.
  rewrite merge_sort_Permutation in Hin.
  apply elem_of_lookup_imap in Hin as (j & v & [= -> _] & Hj).
  by apply lookup_lt_Some in Hj.
Qed.

Lemma collect_hits_wf vs f hits :
  wf_store vs ->
  (forall i s, (i, s) ∈ hits -> (i < length (index_vectors vs))%nat) ->
  exists docs, collect_hits vs f hits = inr docs.
Proof.
  intros (Hlen & Hkeys & Hdocs). induction hits as [|[i s] hits IH];
    intros Hpos; simpl; [eauto|].
  assert (is_Some (index_to_docstore_id vs !! i)) as [id Hid].
  { apply Hkeys. rewrite <- Hlen. apply (Hpos i s). by left. }
  rewrite Hid. destruct (Hdocs _ _ Hid) as [doc ->].
  destruct IH as [docs ->]; [intros j t Hj; apply (Hpos j t); by right|].
  eauto.
Qed.

Lemma search_succeeds q u k fs sp w vs v :
  indexes w !! vector_store_path_of sp u = Some vs ->
  fault w (OpLoad (vector_store_path_of sp u)) = None ->
  wf_store vs ->
  embed_text q = inr v ->
  vec_len v = index_d vs ->
  exists results w',
    search_user_embeddings q u k fs sp w
    = (Returned (SearchSuccess u q results (length results)), w').
Proof.
  intros Hix Hflt Hwf Hq Hdim.
  unfold search_user_embeddings.
  set (p := vector_store_path_of sp u) in *.
  assert (path_exists p w = true) as Hex.
  { unfold path_exists. rewrite Hix.
    rewrite (bool_decide_eq_true_2 (is_Some (Some vs))) by eauto.
    apply orb_true_r. }
  unfold load_local, similarity_search_with_score, embed_query. unfold_M.
  rewrite Hex. cbn [negb indexes fault log].
  rewrite Hix, Hflt, Hq, Hdim, Nat.eqb_refl. cbn [negb].
  destruct (collect_hits_wf vs (filter_dict_of u fs)
              (index_search vs v fetch_k) Hwf) as [docs ->]; [|eauto].
  intros i s. apply index_search_positions.
Qed.

End SearchSucceeds.

(** C4 -- Not-found on read operations.  When nothing exists at the
    user's index path, [search_user_embeddings] and [get_user_info] both
    return the "No embeddings found for user ..." error and leave the
    world, call log included, as it was: no load, no embedding and no
    nearest-neighbour search is made.  When the index exists, a
    successful search with a non-negative [k] has at most [k] results, in
    order of increasing distance; and it is successful whenever the saved
    store loads, is well formed and has the dimension of the embedded
    query. *)
Theorem read_not_found_else_ranked `{Cap : Capabilities} `{SO : !ScoreOrder}
    (q u : string) (k : Z) (fs : option string) (sp : string) (w : World) :
  (path_exists (vector_store_path_of sp u) w = false ->
     search_user_embeddings q u k fs sp w
     = (Returned (SearchError None ("No embeddings found for user " +:+ u)), w)
     /\ get_user_info u sp w
        = (Returned (InfoError None ("No embeddings found for user " +:+ u)),
           w))
  /\ (path_exists (vector_store_path_of sp u) w = true -> 0 <= k ->
      forall u' q' results n w',
        search_user_embeddings q u k fs sp w
        = (Returned (SearchSuccess u' q' results n), w') ->
        (length results <= Z.to_nat k)%nat
        /\ n = length results
        /\ StronglySorted by_distance results)
  /\ (forall vs v,
        indexes w !! vector_store_path_of sp u = Some vs ->
        fault w (OpLoad (vector_store_path_of sp u)) = None ->
        wf_store vs -> embed_text q = inr v -> vec_len v = index_d vs ->
        exists results w',
          search_user_embeddings q u k fs sp w
          = (Returned (SearchSuccess u q results (length results)), w')).
Proof.
  split; [|split].
  - intros Hex. unfold search_user_embeddings, get_user_info. unfold_M.
    by rewrite Hex.
  - intros Hex Hk u' q' results n w'.
    unfold search_user_embeddings. unfold_M. rewrite Hex. simpl.
    destruct (load_local _ w) as [[vs|e] w1]; [|done].
    destruct (similarity_search_with_score vs q k _ w1)
      as [[docs|e] w2] eqn:E; [|done].
    intros [= <- <- <- <- <-].
    destruct (similarity_search_ranked _ _ _ _ _ _ _ Hk E) as [Hlen Hs].
    rewrite length_map. repeat split; [done|].
    by apply format_results_sorted.
  - intros vs v. apply search_succeeds.
Qed.

(** ** The concrete environment *)

Lemma length_score_order : @ScoreOrder length_capabilities.
Proof.
  split; simpl.
  - intros a b. destruct (Z.leb_spec a b); [by left|right]. apply Z.leb_le. lia.
  - intros a b c H1%Z.leb_le H2%Z.leb_le. apply Z.leb_le. lia.
Qed.

Lemma read_not_found_else_ranked_witness :
  search_user_embeddings (Cap := length_capabilities)
    "passport" "bob" 3 None default_save_path alice_world
  = (Returned (SearchError None "No embeddings found for user bob"),
     alice_world)
  /\ (forall u' q' results n w',
        search_user_embeddings (Cap := length_capabilities)
          "passport" "alice" 3 None default_save_path alice_world
        = (Returned (SearchSuccess u' q' results n), w') ->
        (length results <= 3)%nat /\ n = length results
        /\ StronglySorted by_distance results).
Proof.
  split.
  - apply (read_not_found_else_ranked (Cap := length_capabilities)
             (SO := length_score_order)
             "passport" "bob" 3 None default_save_path alice_world).
    vm_compute. reflexivity.
  - apply (read_not_found_else_ranked (Cap := length_capabilities)
             (SO := length_score_order)
             "passport" "alice" 3 None default_save_path alice_world).
    + vm_compute. reflexivity.
    + lia.
Defined.

(** ** Failures of [store_user_embedding] *)

Section StoreFailures.
Context `{Cap : Capabilities}.

Lemma file_exists fp w text :
  files w !! fp = Some text -> path_exists fp w = true.
Proof.
  intros Hf. unfold path_exists. rewrite Hf.
  by rewrite (bool_decide_eq_true_2 (is_Some (Some text))) by eauto.
Qed.

Lemma index_exists p w vs :
  indexes w !! p = Some vs -> path_exists p w = true.
Proof.
  intros Hi. unfold path_exists. rewrite Hi.
  rewrite (bool_decide_eq_true_2 (is_Some (Some vs))) by eauto.
  apply orb_true_r.
Qed.

(** [os.makedirs] is called outside both [try] blocks: when it raises,
    the exception leaves [store_user_embedding]. *)
Lemma store_propagates_makedirs fp u ds sp w text e w' :
  files w !! fp = Some text ->
  fault w (OpRead fp) = None ->
  makedirs (user_dir_of sp u) w = (Raised e, w') ->
  store_user_embedding fp u ds sp w = (Raised e, w').
Proof.
  intros Hf Hr Hm. unfold store_user_embedding. unfold_M.
  rewrite (file_exists _ _ _ Hf). cbn [negb].
  unfold read_text. rewrite Hr, Hf. by rewrite Hm.
Qed.

End StoreFailures.

(** C10 -- Totality of the storage layer fails for
    [store_user_embedding]: with a readable input file and the user's
    directory path taken by a regular file, [os.makedirs] raises
    [FileExistsError] and the call raises it to its caller instead of
    returning a dictionary. *)
Theorem store_user_embedding_raises :
  (store_user_embedding (Cap := length_capabilities)
     "doc.txt" "bob" None default_save_path blocked_world).1
  = Raised (Exn "FileExistsError"
             "[Errno 17] File exists: 'user_embeddings/bob'").
Proof. vm_compute. reflexivity. Qed.

(** ** What the library calls do on success *)

Section CallFacts.
Context `{Cap : Capabilities}.

Lemma makedirs_inv d w w' :
  makedirs d w = (Returned tt, w') ->
  w' = set_dirs ({[ d ]} ∪ dirs w) w /\ files w !! d = None.
Proof.
  unfold makedirs. destruct (fault w _); [done|].
  destruct (negb (Py.truthy d)); [done|].
  destruct (files w !! d) eqn:E.
  - by rewrite (bool_decide_eq_true_2 (is_Some (Some s))) by eauto.
  - rewrite (bool_decide_eq_false_2 (is_Some None)) by (by intros [? ?]).
    by intros [= <-].
Qed.

Lemma makedirs_effect d w o w' :
  makedirs d w = (o, w') ->
  files w' = files w /\ indexes w' = indexes w /\ fault w' = fault w
  /\ uuid_count w' = uuid_count w /\ uuid_source w' = uuid_source w
  /\ dirs w ⊆ dirs w'.
Proof.
  unfold makedirs. destruct (fault w _); [by intros [= <- <-]|].
  destruct (negb (Py.truthy d)); [by intros [= <- <-]|].
  destruct (bool_decide _); intros [= <- <-]; simpl; repeat split; auto.
  set_solver.
Qed.

Lemma load_local_inv p w vs w' :
  load_local p w = (Returned vs, w') ->
  indexes w !! p = Some vs /\ fault w (OpLoad p) = None
  /\ w' = log (CallLoad p) w.
Proof.
  unfold load_local. cbn [fault indexes log].
  destruct (fault w _); [done|].
  destruct (indexes w !! p); [|done]. by intros [= <- <-].
Qed.

Lemma save_local_inv p vs w w' :
  save_local p vs w = (Returned tt, w') ->
  fault w (OpSave p) = None
  /\ w' = set_indexes (<[p := vs]> (indexes w)) (log (CallSave p) w).
Proof.
  unfold save_local. cbn [fault files log].
  destruct (fault w _); [done|].
  destruct (bool_decide _); [done|]. by intros [= <-].
Qed.

Lemma save_local_raised p vs w e w' :
  save_local p vs w = (Raised e, w') -> w' = log (CallSave p) w.
Proof.
  unfold save_local. cbn [fault files log].
  destruct (fault w _); [by intros [= <- <-]|].
  destruct (bool_decide _); [by intros [= <- <-]|done].
Qed.

Lemma embed_query_inv t w v w' :
  embed_query t w = (Returned v, w') ->
  embed_text t = inr v /\ w' = log (CallEmbed t) w.
Proof.
  unfold embed_query. destruct (embed_text t); [done|]. by intros [= <- <-].
Qed.

Lemma embed_query_effect t w o w' :
  embed_query t w = (o, w') -> w' = log (CallEmbed t) w.
Proof.
  unfold embed_query. destruct (embed_text t); by intros [= <- <-].
Qed.

Lemma add_documents_inv vs document id w vs' w' :
  add_documents vs document id w = (Returned vs', w') ->
  exists v, embed_text (page_content document) = inr v
    /\ vec_len v = index_d vs
    /\ docstore vs !! id = None
    /\ vs' = FAISS_add vs id document v
    /\ w' = log (CallEmbed (page_content document)) w.
Proof.
  unfold add_documents. unfold_M.
  destruct (embed_query _ w) as [[v|e] w1] eqn:E; [|done].
  apply embed_query_inv in E as [Hv ->].
  destruct (vec_len v =? index_d vs)%nat eqn:Hd; [|done]. cbn [negb].
  destruct (docstore vs !! id) eqn:Hid.
  - by rewrite (bool_decide_eq_true_2 (is_Some (Some d))) by eauto.
  - rewrite (bool_decide_eq_false_2 (is_Some None)) by (by intros [? ?]).
    intros [= <- <-]. exists v. apply Nat.eqb_eq in Hd. by repeat split.
Qed.

Lemma add_documents_effect vs document id w o w' :
  add_documents vs document id w = (o, w') ->
  w' = log (CallEmbed (page_content document)) w.
Proof.
  unfold add_documents. unfold_M.
  destruct (embed_query _ w) as [[v|e] w1] eqn:E;
    apply embed_query_effect in E as ->; [|by intros [= <- <-]].
  destruct (negb _); [by intros [= <- <-]|].
  destruct (bool_decide _); by intros [= <- <-].
Qed.

End CallFacts.

(** ** What a successful store did *)

Section StoreSuccess.
Context `{Cap : Capabilities}.

Lemma path_exists_more_dirs p d w :
  path_exists p (set_dirs ({[ d ]} ∪ dirs w) w) = false ->
  path_exists p w = false.
Proof.
  unfold path_exists. cbn [files dirs indexes set_dirs].
  intros H. apply orb_false_iff in H as [H Hi].
  apply orb_false_iff in H as [Hf Hd].
  rewrite Hf, Hi. rewrite orb_false_r. cbn [orb].
  apply bool_decide_eq_false. apply bool_decide_eq_false in Hd. set_solver.
Qed.

Lemma store_success_inv fp u ds sp w id u' ds' p msg w' :
  store_user_embedding fp u ds sp w
  = (Returned (StoreSuccess id u' ds' p msg), w') ->
  exists text vs0 v,
    files w !! fp = Some text
    /\ u' = u /\ ds' = data_source_of fp ds /\ p = vector_store_path_of sp u
    /\ id = uuid_source w (uuid_count w)
    /\ (indexes w !! p = Some vs0 /\ fault w (OpLoad p) = None
        \/ (path_exists p w = false
            /\ exists probe, embed_text "hello world" = inr probe
                             /\ vs0 = FAISS_new (vec_len probe)))
    /\ embed_text text = inr v /\ vec_len v = index_d vs0
    /\ docstore vs0 !! id = None
    /\ indexes w'
       = <[p := FAISS_add vs0 id (new_document text ds' u fp) v]> (indexes w)
    /\ files w' = files w /\ fault w' = fault w
    /\ dirs w' = {[ user_dir_of sp u ]} ∪ dirs w
    /\ uuid_count w' = S (uuid_count w).
Proof.
  intros H. unfold store_user_embedding in H. unfold_M.
  destruct (path_exists fp w) eqn:Hfp; cbn [negb] in H; [|done].
  unfold read_text in H.
  destruct (fault w (OpRead fp)); [done|].
  destruct (files w !! fp) as [text|] eqn:Hf; [|done].
  destruct (makedirs _ w) as [[[]|e] w1] eqn:Hmk; [|done].
  apply makedirs_inv in Hmk as [-> Hd].
  set (p0 := vector_store_path_of sp u) in *.
  set (d0 := user_dir_of sp u) in *.
  set (w1 := set_dirs _ w) in *.
  destruct (path_exists p0 w1) eqn:Hp.
  - destruct (load_local p0 w1) as [[vs0|e] w2] eqn:Hl; [|done].
    apply load_local_inv in Hl as (Hix & Hflt & ->).
    unfold uuid4 in H.
    destruct (add_documents vs0 _ _ _) as [[vs'|e] w3] eqn:Ha; [|done].
    apply add_documents_inv in Ha as (v & Hv & Hdim & Hfresh & -> & ->).
    destruct (save_local p0 _ _) as [[[]|e] w4] eqn:Hs; [|done].
    apply save_local_inv in Hs as [Hsf ->].
    injection H as <- <- <- <- <- <-.
    exists text, vs0, v. repeat split; auto.
  - unfold embed_query at 1 in H.
    destruct (embed_text "hello world") as [e|probe] eqn:Hprobe; [done|].
    unfold uuid4 in H.
    destruct (add_documents (FAISS_new _) _ _ _) as [[vs'|e] w3] eqn:Ha;
      [|done].
    apply add_documents_inv in Ha as (v & Hv & Hdim & Hfresh & -> & ->).
    destruct (save_local p0 _ _) as [[[]|e] w4] eqn:Hs; [|done].
    apply save_local_inv in Hs as [Hsf ->].
    injection H as <- <- <- <- <- <-.
    exists text, (FAISS_new (vec_len probe)), v. repeat split; auto.
    right. split; [by eapply path_exists_more_dirs|eauto].
Qed.

End StoreSuccess.

(** ** Paths *)

Lemma string_length_app (a b : string) :
  String.length (a +:+ b) = (String.length a + String.length b)%nat.
Proof.
  induction a as [|c a IH]; [done|].
  change (S (String.length (a +:+ b))
          = S (String.length a + String.length b)).
  by rewrite IH.
Qed.

Lemma string_app_assoc (a b c : string) : (a +:+ b) +:+ c = a +:+ b +:+ c.
Proof.
  induction a as [|x a IH]; [done|].
  change (String x ((a +:+ b) +:+ c) = String x (a +:+ b +:+ c)).
  by rewrite IH.
Qed.

Lemma startswith_app c (a b : string) :
  Py.truthy a = true ->
  Py.startswith_char c (a +:+ b) = Py.startswith_char c a.
Proof. by destruct a. Qed.

Lemma join_absolute_r a b :
  Py.startswith_char Py.sep b = true -> OsPath.join a b = b.
Proof. unfold OsPath.join. by intros ->. Qed.



(** Under the default base path the index path determines the user id:
    two users never share an index folder. *)
Lemma string_app_inv (a b x y : string) :
  String.length a = String.length b -> a +:+ x = b +:+ y -> a = b /\ x = y.
Proof.
  revert b. induction a as [|c a IH]; intros [|c' b] Hlen Heq;
    try discriminate; [done|].
  change (String c (a +:+ x) = String c' (b +:+ y)) in Heq.
  injection Heq as -> Heq. injection Hlen as Hlen.
  destruct (IH b Hlen Heq) as [-> ->]. done.
Qed.




(** ** When a store succeeds *)

Section StoreSucceeds.
Context `{Cap : Capabilities}.





End StoreSucceeds.

Section StoreErrors.
Context `{Cap : Capabilities}.


End StoreErrors.



(** ** Counting the documents of a user *)

Section Counting.
Context `{Cap : Capabilities}.

Lemma found_truthy_search vs id : found_truthy (docstore_search vs id) = true.
Proof. unfold docstore_search. by destruct (docstore vs !! id). Qed.

Lemma all_docs_of_eq vs :
  all_docs_of vs
  = map (fun entry => docstore_search vs entry.2)
        (map_to_list (index_to_docstore_id vs)).
Proof.
  unfold all_docs_of. induction (map_to_list (index_to_docstore_id vs))
    as [|x l IH]; [done|].
  cbn [map]. rewrite filter_cons_True by apply found_truthy_search.
  by rewrite IH.
Qed.

Lemma length_all_docs_of vs :
  length (all_docs_of vs) = size (index_to_docstore_id vs).
Proof. by rewrite all_docs_of_eq, length_map, length_map_to_list. Qed.

Lemma count_sources_ok l acc :
  (exists srcs, count_sources l acc = inr srcs)
  <-> Forall (fun d => exists doc, d = inr doc) l.
Proof.
  revert acc. induction l as [|[msg|doc] l IH]; intros acc; simpl.
  - split; [constructor|eauto].
  - split; [by intros [? ?]|]. intros H. inversion H as [|? ? [? ?]]. done.
  - rewrite IH. split; [intros; constructor; eauto|].
    intros H. by inversion H.
Qed.

Lemma all_docs_present vs :
  Forall (fun d => exists doc, d = inr doc) (all_docs_of vs)
  <-> ids_present vs.
Proof.
  rewrite all_docs_of_eq, Forall_forall. unfold ids_present. split.
  - intros H i id Hid.
    destruct (H (docstore_search vs id)) as [doc Hdoc].
    { apply list_elem_of_fmap. exists (i, id). split; [done|].
      by apply elem_of_map_to_list. }
    unfold docstore_search in Hdoc. destruct (docstore vs !! id); eauto.
    done.
  - intros H d Hd. apply list_elem_of_fmap in Hd as ([i id] & -> & Hin).
    apply elem_of_map_to_list in Hin. destruct (H _ _ Hin) as [doc Hdoc].
    unfold docstore_search. cbn. rewrite Hdoc. eauto.
Qed.

Lemma ids_present_add vs id document v :
  ids_present vs -> ids_present (FAISS_add vs id document v).
Proof.
  intros H i id'. unfold FAISS_add. cbn [index_to_docstore_id docstore].
  rewrite lookup_insert. case_decide as Hi.
  - intros [= <-]. rewrite lookup_insert_eq. eauto.
  - intros Hid. rewrite lookup_insert. case_decide; [eauto|]. by eapply H.
Qed.

Lemma size_add_le vs id document v :
  (size (index_to_docstore_id vs)
   <= size (index_to_docstore_id (FAISS_add vs id document v)))%nat.
Proof.
  unfold FAISS_add. cbn [index_to_docstore_id].
  destruct (index_to_docstore_id vs !! size (index_to_docstore_id vs)) eqn:E.
  - rewrite map_size_insert_Some; [lia|eauto].
  - rewrite map_size_insert_None by done. lia.
Qed.

Lemma size_add_wf vs id document v :
  wf_store vs ->
  size (index_to_docstore_id (FAISS_add vs id document v))
  = S (size (index_to_docstore_id vs)).
Proof.
  intros (_ & Hkeys & _). unfold FAISS_add. cbn [index_to_docstore_id].
  apply map_size_insert_None.
  destruct (index_to_docstore_id vs !! size (index_to_docstore_id vs)) eqn:E;
    [|done].
  assert (is_Some (index_to_docstore_id vs !! size (index_to_docstore_id vs)))
    as Hs by eauto.
  apply Hkeys in Hs. lia.
Qed.

(** The invariant holds for a new store and is kept by an addition. *)
Lemma wf_store_new n : wf_store (FAISS_new n).
Proof.
  unfold wf_store, FAISS_new. cbn. rewrite map_size_empty. repeat split.
  - intros [? H]. by rewrite lookup_empty in H.
  - lia.
  - intros i id H. by rewrite lookup_empty in H.
Qed.

Lemma wf_store_add vs id document v :
  wf_store vs -> wf_store (FAISS_add vs id document v).
Proof.
  intros Hwf. pose proof (size_add_wf vs id document v Hwf) as Hsz.
  destruct Hwf as (Hlen & Hkeys & Hdocs). split; [|split].
  - rewrite Hsz. unfold FAISS_add. cbn [index_vectors].
    rewrite length_app. cbn. lia.
  - intros i. rewrite Hsz. unfold FAISS_add. cbn [index_to_docstore_id].
    rewrite lookup_insert. case_decide as Hi.
    + subst i. split; [lia|eauto].
    + rewrite Hkeys. lia.
  - by apply ids_present_add.
Qed.

End Counting.

Section Reports.
Context `{Cap : Capabilities}.

Lemma directory_size_inv d w n w' :
  directory_size d w = (Returned n, w') ->
  fault w (OpListdir d) = None
  /\ (d ∈ dirs w \/ is_Some (indexes w !! d)).
Proof.
  unfold directory_size. destruct (fault w _); [done|].
  destruct (bool_decide (d ∈ dirs w)) eqn:Hd; cbn [orb negb].
  - intros _. apply bool_decide_eq_true in Hd. auto.
  - destruct (bool_decide (is_Some (indexes w !! d))) eqn:Hi; [|done].
    intros _. apply bool_decide_eq_true in Hi. auto.
Qed.

Lemma directory_size_ok d w :
  fault w (OpListdir d) = None ->
  (d ∈ dirs w \/ is_Some (indexes w !! d)) ->
  exists n, directory_size d w = (Returned n, w).
Proof.
  intros Hf Hd. unfold directory_size. rewrite Hf.
  assert (bool_decide (d ∈ dirs w)
          || bool_decide (is_Some (indexes w !! d)) = true) as ->; [|eauto].
  destruct Hd as [Hd|Hd].
  - by rewrite (bool_decide_eq_true_2 _ Hd).
  - rewrite (bool_decide_eq_true_2 _ Hd). apply orb_true_r.
Qed.

(** [get_user_info] reports [n] documents exactly when [reports] holds. *)
Lemma total_documents_of_reports u sp w n :
  total_documents_of u sp w = Some n <-> reports u sp w n.
Proof.
  unfold total_documents_of, reports, get_user_info. unfold_M.
  set (p := vector_store_path_of sp u). set (d := user_dir_of sp u).
  split.
  - destruct (path_exists p w); cbn [negb]; [|done].
    destruct (load_local p w) as [[vs|e] w1] eqn:Hl; [|done].
    apply load_local_inv in Hl as (Hix & Hflt & ->).
    destruct (count_sources _ _) as [e|srcs] eqn:Hc; [done|].
    destruct (directory_size d _) as [[sz|e] w2] eqn:Hd; [|done].
    apply directory_size_inv in Hd as [Hls Hdir].
    cbn. intros [= <-]. exists vs. repeat split; auto.
    + apply all_docs_present. eapply count_sources_ok. eauto.
    + apply length_all_docs_of.
  - intros (vs & Hix & Hflt & Hids & Hls & Hdir & ->).
    rewrite (index_exists _ _ _ Hix). cbn [negb].
    unfold load_local. cbn [fault indexes log]. rewrite Hflt, Hix.
    apply all_docs_present in Hids.
    apply (count_sources_ok _ ∅) in Hids as [srcs ->].
    destruct (directory_size_ok d (log (CallLoad p) w)) as [sz ->]; auto.
    cbn. by rewrite length_all_docs_of.
Qed.

End Reports.

(** ** What a store changes, whatever its outcome *)

Section StoreEffect.
Context `{Cap : Capabilities}.

Lemma load_local_effect p w o w' :
  load_local p w = (o, w') -> w' = log (CallLoad p) w.
Proof.
  unfold load_local. cbn [fault indexes log].
  destruct (fault w _); [by intros [= <- <-]|].
  destruct (indexes w !! p); by intros [= <- <-].
Qed.

Ltac world_fields :=
  cbn [files fault dirs indexes uuid_count uuid_source log set_uuid_count
       set_indexes set_dirs] in *.

Lemma store_effect fp u ds sp w o w' :
  let p := vector_store_path_of sp u in
  store_user_embedding fp u ds sp w = (o, w') ->
  files w' = files w /\ fault w' = fault w /\ dirs w ⊆ dirs w'
  /\ (indexes w' = indexes w
      \/ exists vs0 id document v,
           indexes w' = <[p := FAISS_add vs0 id document v]> (indexes w)
           /\ (indexes w !! p = Some vs0
               \/ (indexes w !! p = None /\ exists n, vs0 = FAISS_new n))).
Proof.
  intros p. unfold store_user_embedding. unfold_M.
  destruct (path_exists fp w); cbn [negb].
  2:{ intros [= <- <-]. repeat split; auto. }
  unfold read_text.
  destruct (fault w (OpRead fp)).
  { intros [= <- <-]. repeat split; auto. }
  destruct (files w !! fp) as [text|].
  2:{ intros [= <- <-]. repeat split; auto. }
  destruct (makedirs _ w) as [[[]|x] w1] eqn:Hmk;
    apply makedirs_effect in Hmk as (Hf & Hi & Hflt & _ & _ & Hd).
  2:{ intros [= <- <-]. repeat split; auto. }
  fold p.
  destruct (path_exists p w1) eqn:Hp.
  - destruct (load_local p w1) as [[vs0|x] w2] eqn:Hl.
    2:{ apply load_local_effect in Hl as ->. intros [= <- <-]. world_fields.
        repeat split; auto. }
    apply load_local_inv in Hl as (Hix & _ & ->). unfold uuid4.
    destruct (add_documents vs0 _ _ _) as [[vs'|x] w3] eqn:Ha.
    2:{ apply add_documents_effect in Ha as ->. intros [= <- <-].
        world_fields. repeat split; auto. }
    apply add_documents_inv in Ha as (v & _ & _ & _ & -> & ->).
    destruct (save_local p _ _) as [[[]|x] w4] eqn:Hs.
    2:{ apply save_local_raised in Hs as ->. intros [= <- <-].
        world_fields. repeat split; auto. }
    apply save_local_inv in Hs as [_ ->]. intros [= <- <-]. world_fields.
    repeat split; auto. right. rewrite Hi in *. eauto 10.
  - assert (indexes w !! p = None) as Hnone.
    { unfold path_exists in Hp. apply orb_false_iff in Hp as [_ Hp].
      apply bool_decide_eq_false in Hp. rewrite <- Hi.
      destruct (indexes w1 !! p); [|done]. exfalso. apply Hp. eauto. }
    destruct (embed_query _ w1) as [[probe|x] w2] eqn:He;
      apply embed_query_effect in He as ->.
    2:{ intros [= <- <-]. world_fields. repeat split; auto. }
    unfold uuid4.
    destruct (add_documents _ _ _ _) as [[vs'|x] w3] eqn:Ha.
    2:{ apply add_documents_effect in Ha as ->. intros [= <- <-].
        world_fields. repeat split; auto. }
    apply add_documents_inv in Ha as (v & _ & _ & _ & -> & ->).
    destruct (save_local p _ _) as [[[]|x] w4] eqn:Hs.
    2:{ apply save_local_raised in Hs as ->. intros [= <- <-].
        world_fields. repeat split; auto. }
    apply save_local_inv in Hs as [_ ->]. intros [= <- <-]. world_fields.
    repeat split; auto. right. rewrite Hi in *. eauto 10.
Qed.

End StoreEffect.

(** ** Reads leave the storage alone *)

Section ReadsKeepStorage.
Context `{Cap : Capabilities}.

Lemma directory_size_keeps_world d w o w' :
  directory_size d w = (o, w') -> w' = w.
Proof.
  unfold directory_size. destruct (fault w _); [by intros [= <- <-]|].
  destruct (negb _); by intros [= <- <-].
Qed.

Lemma get_user_info_keeps_storage u sp w :
  same_storage w (get_user_info u sp w).2.
Proof.
  unfold get_user_info. unfold_M.
  destruct (negb (path_exists _ w)); [apply same_storage_refl|].
  destruct (load_local _ w) as [[vs|e] w1] eqn:Hl;
    apply load_local_effect in Hl as ->; [|apply same_storage_log].
  destruct (count_sources _ _); [apply same_storage_log|].
  destruct (directory_size _ _) as [[sz|e] w2] eqn:Hd;
    apply directory_size_keeps_world in Hd as ->; apply same_storage_log.
Qed.

Lemma retrieve_context_world q u w :
  (retrieve_context q u w).2
  = (search_user_embeddings q u 3 None default_save_path w).2.
Proof.
  unfold retrieve_context. unfold_M.
  destruct (search_user_embeddings q u 3 None default_save_path w)
    as [[[]|e] w1]; reflexivity.
Qed.

Lemma reports_same_storage u sp w1 w2 n :
  same_storage w1 w2 -> reports u sp w1 n -> reports u sp w2 n.
Proof.
  intros (Hf & Hd & Hi & Hflt). unfold reports.
  by rewrite Hd, Hi, Hflt.
Qed.

End ReadsKeepStorage.

(** ** The invariant of the saved indexes *)

Section Invariant.
Context `{Cap : Capabilities}.

Lemma wf_world_empty fs : wf_world (world_with fs).
Proof. intros p vs H. cbn in H. by rewrite lookup_empty in H. Qed.

Lemma wf_world_same_storage w1 w2 :
  same_storage w1 w2 -> wf_world w1 -> wf_world w2.
Proof. intros (_ & _ & Hi & _) H p vs. rewrite <- Hi. apply H. Qed.

(** Every operation keeps the saved indexes well formed. *)
Lemma wf_world_run op w : wf_world w -> wf_world (run op w).
Proof.
  intros Hwf. destruct op as [fp u ds sp|q u k fs sp|u sp|q u]; cbn [run].
  - destruct (store_user_embedding fp u ds sp w) as [o w'] eqn:E.
    apply store_effect in E
      as (_ & _ & _ & [Hi|(vs0 & id & doc & v & Hi & Hc)]); cbn [snd].
    + intros p vs. rewrite Hi. apply Hwf.
    + intros p vs. rewrite Hi, lookup_insert. case_decide.
      * intros [= <-]. apply wf_store_add.
        destruct Hc as [Hc|[_ [n ->]]]; [by eapply Hwf|apply wf_store_new].
      * apply Hwf.
  - eapply wf_world_same_storage; [apply search_keeps_storage|done].
  - eapply wf_world_same_storage; [apply get_user_info_keeps_storage|done].
  - rewrite retrieve_context_world.
    eapply wf_world_same_storage; [apply search_keeps_storage|done].
Qed.

(** Hence every reachable world is well formed. *)
Lemma reachable_wf_world w : reachable w -> wf_world w.
Proof.
  induction 1 as [w Hw|op w _ IH].
  - intros p vs H. by rewrite Hw, lookup_empty in H.
  - by apply wf_world_run.
Qed.

End Invariant.

Section Growth.
Context `{Cap : Capabilities}.

Lemma store_success_reports fp u ds sp w id u' ds' p msg w' :
  store_user_embedding fp u ds sp w
  = (Returned (StoreSuccess id u' ds' p msg), w') ->
  wf_world w ->
  (forall n, reports u sp w n -> reports u sp w' (S n))
  /\ (path_exists (vector_store_path_of sp u) w = false ->
      fault w (OpLoad (vector_store_path_of sp u)) = None ->
      fault w (OpListdir (user_dir_of sp u)) = None ->
      reports u sp w' 1).
Proof.
  intros H Hwf. apply store_success_inv in H
    as (text & vs0 & v & _ & -> & -> & -> & _ & Hc & _ & _ & _
        & Hix & _ & Hflt & Hdirs & _).
  set (p := vector_store_path_of sp u) in *.
  set (d := user_dir_of sp u) in *.
  assert (d ∈ dirs w') as Hd.
  { rewrite Hdirs. by apply elem_of_union_l, elem_of_singleton. }
  split.
  - intros n (vs & Hvs & Hld & Hids & Hls & _ & ->). fold p in Hvs.
    destruct Hc as [[Hvs0 _]|[Hex _]].
    2:{ by rewrite (index_exists p w vs Hvs) in Hex. }
    rewrite Hvs in Hvs0. injection Hvs0 as ->.
    eexists. fold p d. rewrite Hix, lookup_insert_eq, Hflt.
    repeat split; auto using ids_present_add.
    rewrite size_add_wf; [done|by eapply Hwf].
  - intros Hex Hld Hls. destruct Hc as [[Hvs0 _]|[_ (probe & _ & ->)]].
    { by rewrite (index_exists p w vs0 Hvs0) in Hex. }
    eexists. fold p d. rewrite Hix, lookup_insert_eq, Hflt.
    split; [done|]. split; [done|]. split; [|split; [done|split; [auto|]]].
    + apply ids_present_add. intros i id' Hi. cbn in Hi.
      by rewrite lookup_empty in Hi.
    + rewrite size_add_wf by apply wf_store_new. cbn.
      by rewrite map_size_empty.
Qed.

Lemma store_keeps_reports fp v ds sp' w u sp n :
  reports u sp w n ->
  exists m, reports u sp (store_user_embedding fp v ds sp' w).2 m
            /\ (n <= m)%nat.
Proof.
  intros (vs & Hvs & Hld & Hids & Hls & Hdir & ->).
  destruct (store_user_embedding fp v ds sp' w) as [o w'] eqn:E.
  apply store_effect in E
    as (_ & Hflt & Hd & [Hi|(vs0 & id & doc & x & Hi & Hc)]); cbn [snd].
  - exists (size (index_to_docstore_id vs)). split; [|lia].
    exists vs. rewrite Hi, Hflt. repeat split; auto.
    destruct Hdir; [left; by apply Hd|by right].
  - set (p := vector_store_path_of sp u) in *.
    set (d := user_dir_of sp u) in *.
    set (p' := vector_store_path_of sp' v) in *.
    assert (d ∈ dirs w' \/ is_Some (indexes w' !! d)) as Hdir'.
    { destruct Hdir as [?|Hs]; [left; by apply Hd|right].
      rewrite Hi, lookup_insert. case_decide; eauto. }
    destruct (decide (p' = p)) as [Heq|Hne].
    + rewrite Heq in *. rewrite Hvs in Hc.
      destruct Hc as [[= <-]|[? _]]; [|done].
      eexists. split.
      * exists (FAISS_add vs id doc x).
        split; [by rewrite Hi, lookup_insert_eq|]. split; [by rewrite Hflt|].
        split; [by apply ids_present_add|]. split; [by rewrite Hflt|].
        split; [exact Hdir'|done].
      * apply size_add_le.
    + exists (size (index_to_docstore_id vs)). split; [|lia].
      exists vs.
      split; [by rewrite Hi, lookup_insert_ne|]. split; [by rewrite Hflt|].
      split; [done|]. split; [by rewrite Hflt|]. split; [exact Hdir'|done].
Qed.

End Growth.

(** C7 -- Append-only growth.  In a world whose saved indexes are well
    formed (which every reachable world is, [reachable_wf_world]), a
    successful [store_user_embedding] for a user raises the
    [total_documents] that [get_user_info] reports for that user by
    exactly one; when the user had no index, and loading and listing do
    not fail, it reports 1 afterwards.  No call of
    [store_user_embedding], [search_user_embeddings], [get_user_info] or
    [retrieve_context], for any user and whatever its outcome, lowers a
    reported [total_documents]. *)
Theorem append_only_growth `{Cap : Capabilities} (u sp : string) (w : World) :
  (forall fp ds id u' ds' p msg w',
     store_user_embedding fp u ds sp w
     = (Returned (StoreSuccess id u' ds' p msg), w') ->
     wf_world w ->
     (forall n, total_documents_of u sp w = Some n ->
                total_documents_of u sp w' = Some (S n))
     /\ (path_exists (vector_store_path_of sp u) w = false ->
         fault w (OpLoad (vector_store_path_of sp u)) = None ->
         fault w (OpListdir (user_dir_of sp u)) = None ->
         total_documents_of u sp w' = Some 1%nat))
  /\ (forall op n,
        total_documents_of u sp w = Some n ->
        exists m, total_documents_of u sp (run op w) = Some m /\ (n <= m)%nat).
Proof.
  split.
  - intros fp ds id u' ds' p msg w' Hs Hwf.
    destruct (store_success_reports _ _ _ _ _ _ _ _ _ _ _ Hs Hwf) as [H1 H2].
    split.
    + intros n Hn. apply total_documents_of_reports, H1.
      by apply total_documents_of_reports.
    + intros. apply total_documents_of_reports. auto.
  - intros op n Hn. apply total_documents_of_reports in Hn.
    assert (forall w', same_storage w w' ->
              exists m, total_documents_of u sp w' = Some m /\ (n <= m)%nat)
      as Hsame.
    { intros w' Hw. exists n. split; [|lia].
      apply total_documents_of_reports. by eapply reports_same_storage. }
    destruct op as [fp v ds sp'|q v k fs sp'|v sp'|q v]; cbn [run].
    + destruct (store_keeps_reports fp v ds sp' w u sp n Hn) as (m & Hm & Hle).
      exists m. split; [|done]. by apply total_documents_of_reports.
    + apply Hsame, search_keeps_storage.
    + apply Hsame, get_user_info_keeps_storage.
    + rewrite retrieve_context_world. apply Hsame, search_keeps_storage.
Qed.

Lemma append_only_growth_witness :
  total_documents_of (Cap := length_capabilities)
    "alice" default_save_path alice_world = Some 2%nat
  /\ exists m,
       total_documents_of (Cap := length_capabilities)
         "alice" default_save_path
         (run (DoStore "a.txt" "bob" None default_save_path) alice_world)
       = Some m /\ (2 <= m)%nat.
Proof.
  destruct (append_only_growth (Cap := length_capabilities)
              "alice" default_save_path alice_world_1) as [Hone _].
  destruct (append_only_growth (Cap := length_capabilities)
              "alice" default_save_path alice_world) as [_ Hmono].
  assert (total_documents_of (Cap := length_capabilities)
            "alice" default_save_path alice_world = Some 2%nat) as Htwo.
  { destruct (Hone "b.TXT" None "00000000-0000-4000-8000-1" "alice" "txt"
                "user_embeddings/alice/alice_faiss_index"
                "Successfully stored embedding for user alice" alice_world)
      as [Hinc _].
    - vm_compute. reflexivity.
    - apply (wf_world_run (DoStore "a.txt" "alice" None default_save_path)),
        wf_world_empty.
    - apply Hinc. vm_compute. reflexivity. }
  split; [exact Htwo|]. apply Hmono, Htwo.
Defined.

(** ** The metadata filter *)

Section Filter.
Context `{Cap : Capabilities}.

Lemma collect_hits_filtered vs f hits docs :
  collect_hits vs f hits = inr docs ->
  Forall (fun d => filter_matches f (doc_metadata d.1) = true) docs.
Proof.
  revert docs. induction hits as [|[i s] hits IH]; intros docs; simpl.
  - intros [= <-]. constructor.
  - destruct (index_to_docstore_id vs !! i) as [id|]; [|done].
    destruct (docstore vs !! id) as [doc|]; [|done].
    destruct (collect_hits vs f hits) as [e|rest]; [done|].
    destruct (filter_matches f (doc_metadata doc)) eqn:E; intros [= <-];
      [constructor|]; auto.
Qed.

Lemma Forall_slice_to {A} (P : A -> Prop) k l :
  Forall P l -> Forall P (Py.slice_to k l).
Proof. unfold Py.slice_to. destruct (0 <=? k); apply Forall_take. Qed.

Lemma similarity_search_filtered vs q k f w docs w' :
  similarity_search_with_score vs q k f w = (Returned docs, w') ->
  Forall (fun d => filter_matches f (doc_metadata d.1) = true) docs.
Proof.
  unfold similarity_search_with_score, embed_query. unfold_M.
  destruct (embed_text q) as [e|v]; simpl; [done|].
  destruct (negb _); [done|].
  destruct (collect_hits _ _ _) as [e|ds] eqn:E; [done|].
  intros [= <- <-]. apply Forall_slice_to.
  by eapply collect_hits_filtered.
Qed.

Lemma filter_dict_names_user u fs m :
  filter_matches (filter_dict_of u fs) m = true ->
  metadata_get "user_id" m = Some u.
Proof.
  unfold filter_dict_of.
  assert (forall rest, filter_matches (("user_id", u) :: rest) m = true ->
                       metadata_get "user_id" m = Some u) as H.
  { intros rest. unfold filter_matches. cbn [forallb fst snd].
    intros [H _]%andb_true_iff. by apply bool_decide_eq_true in H. }
  destruct fs as [src|]; [destruct (Py.truthy src)|]; apply H.
Qed.






End Filter.




(** ** The retrieval tool *)

Section Retrieval.
Context `{Cap : Capabilities}.

(** The code's [join] over the rebuilt documents is the serialization of
    the specification. *)
Lemma serialized_is_blocks_spec (hits : list (Document * Score)) :
  Py.join (nl +:+ nl)
    (map serialize_doc
       (map (fun result =>
               mkDocument None (content result) (result_metadata result))
            (map format_result hits)))
  = blocks_spec hits.
Proof.
  induction hits as [|h [|h' rest] IH]; [done|done|].
  change (serialize_doc (mkDocument None (page_content h.1) (doc_metadata h.1))
            +:+ (nl +:+ nl)
            +:+ Py.join (nl +:+ nl)
                  (map serialize_doc
                     (map (fun result =>
                             mkDocument None (content result)
                                        (result_metadata result))
                          (map format_result (h' :: rest))))
          = block_spec h +:+ nl +:+ nl +:+ blocks_spec (h' :: rest)).
  rewrite IH. unfold serialize_doc, block_spec. cbn [page_content doc_metadata].
  by rewrite !string_app_assoc.
Qed.

Lemma rebuilt_documents (hits : list (Document * Score)) :
  map (fun result => mkDocument None (content result) (result_metadata result))
      (map format_result hits)
  = documents_spec hits.
Proof. unfold documents_spec. by rewrite map_map. Qed.

(** [retrieve_context] never raises, and what it returns on each answer of
    the search. *)
Lemma retrieve_context_cases q u w :
  exists out w',
    retrieve_context q u w = (Returned out, w')
    /\ (forall err msg w1,
          search_user_embeddings q u 3 None default_save_path w
          = (Returned (SearchError err msg), w1) ->
          out = ("No documents found for user " +:+ u +:+ ": " +:+ msg, []))
    /\ (forall u' q' n w1,
          search_user_embeddings q u 3 None default_save_path w
          = (Returned (SearchSuccess u' q' [] n), w1) ->
          out = ("", [])).
Proof.
  destruct (search_user_embeddings_returns q u 3 None default_save_path w)
    as (r & w1 & Hs & _).
  unfold retrieve_context. unfold_M. rewrite Hs.
  destruct r as [err msg|u' q' results n]; eexists _, _;
    (split; [reflexivity|]); split; intros; simplify_eq; done.
Qed.

End Retrieval.

(** C2, as stated, fails -- user ["a/a"] has an index at its path (the one
    user ["a"] saved under the base path ["user_embeddings/a/a"]) but no
    document of its own in it: the search succeeds with zero results and
    [retrieve_context] returns the empty string, not a "no documents
    found" message. *)
Lemma soft_fail_zero_results_counterexample :
  search_user_embeddings (Cap := length_capabilities)
    "passport" "a/a" 3 None default_save_path shared_path_world
  = (Returned (SearchSuccess "a/a" "passport" [] 0),
     (search_user_embeddings (Cap := length_capabilities)
        "passport" "a/a" 3 None default_save_path shared_path_world).2)
  /\ (retrieve_context (Cap := length_capabilities)
        "passport" "a/a" shared_path_world).1
     = Returned ("", [])
  /\ ~ soft_fail_as_stated (Cap := length_capabilities).
Proof.
  assert (search_user_embeddings (Cap := length_capabilities)
            "passport" "a/a" 3 None default_save_path shared_path_world
          = (Returned (SearchSuccess "a/a" "passport" [] 0),
             (search_user_embeddings (Cap := length_capabilities)
                "passport" "a/a" 3 None default_save_path
                shared_path_world).2)) as Hs.
  { vm_compute. reflexivity. }
  assert ((retrieve_context (Cap := length_capabilities)
             "passport" "a/a" shared_path_world).1
          = Returned ("", [])) as Hr.
  { vm_compute. reflexivity. }
  split; [exact Hs|]. split; [exact Hr|].
  intros Hclaim.
  destruct (Hclaim _ _ _ _ _ Hs) as (message & w' & Hret & Hmsg).
  { right. eauto. }
  rewrite Hret in Hr. cbn in Hr. injection Hr as ->. discriminate Hmsg.
Qed.

(** C2 (amended) -- Soft-fail retrieval.  [retrieve_context] always
    returns and never raises.  When the search reports an error it
    returns the message "No documents found for user <user_id>: <message of
    the search>" with an empty document sequence; when the search succeeds
    with zero results it returns the empty string with an empty document
    sequence. *)
Theorem retrieve_context_soft_fail `{Cap : Capabilities}
    (q u : string) (w : World) :
  exists out w',
    retrieve_context q u w = (Returned out, w')
    /\ (forall err msg w1,
          search_user_embeddings q u 3 None default_save_path w
          = (Returned (SearchError err msg), w1) ->
          out = ("No documents found for user " +:+ u +:+ ": " +:+ msg, [])
          /\ no_documents_message out.1)
    /\ (forall u' q' n w1,
          search_user_embeddings q u 3 None default_save_path w
          = (Returned (SearchSuccess u' q' [] n), w1) ->
          out = ("", [])).
Proof.
  destruct (retrieve_context_cases q u w) as (out & w' & Hr & Herr & Hzero).
  exists out, w'. split; [exact Hr|]. split; [|exact Hzero].
  intros err msg w1 Hs. rewrite (Herr _ _ _ Hs). split; reflexivity.
Qed.

(** C3 -- Retrieval contract.  When the user's index under the default
    base path loads, [retrieve_context] asks the vector store for the
    query with [k = 3] and the filter [{"user_id": user_id}] and nothing
    else; it returns the hits of that search serialized as the
    specification says -- one block "Source: <metadata>", newline,
    "Content: <content>" per hit, blocks separated by a blank line, in the
    ranked order -- together with the documents rebuilt from them.  The
    hits are at most three, in order of increasing distance, and each
    carries the user's id. *)
Theorem retrieve_context_contract `{Cap : Capabilities} `{SO : !ScoreOrder}
    (q u : string) (w : World) (vs : FAISS)
    (hits : list (Document * Score)) (w1 : World) :
  let p := vector_store_path_of default_save_path u in
  indexes w !! p = Some vs ->
  fault w (OpLoad p) = None ->
  similarity_search_with_score vs q 3 [("user_id", u)] (log (CallLoad p) w)
  = (Returned hits, w1) ->
  retrieve_context q u w
  = (Returned (blocks_spec hits, documents_spec hits), w1)
  /\ (length hits <= 3)%nat
  /\ StronglySorted hit_by_distance hits
  /\ Forall (fun hit => metadata_get "user_id" (doc_metadata hit.1) = Some u)
            hits.
Proof.
  intros p Hix Hld Hsim.
  assert (0 <= 3) as Hk by lia.
  destruct (similarity_search_ranked _ _ _ _ _ _ _ Hk Hsim) as [Hlen Hsorted].
  split; [|split; [|split]].
  - unfold retrieve_context, search_user_embeddings. unfold_M. fold p.
    rewrite (index_exists p w vs Hix). cbn [negb].
    unfold load_local. cbn [fault indexes log]. rewrite Hld, Hix.
    cbn [filter_dict_of]. rewrite Hsim.
    by rewrite serialized_is_blocks_spec, rebuilt_documents.
  - exact Hlen.
  - exact Hsorted.
  - apply similarity_search_filtered in Hsim.
    eapply Forall_impl; [exact Hsim|]. intros hit.
    apply (filter_dict_names_user u None).
Qed.

Lemma retrieve_context_contract_witness :
  exists hits w1,
    retrieve_context (Cap := length_capabilities)
      "passport" "alice" alice_world
    = (Returned (blocks_spec (Cap := length_capabilities) hits,
                 documents_spec (Cap := length_capabilities) hits), w1)
    /\ (length hits <= 3)%nat
    /\ StronglySorted (hit_by_distance (Cap := length_capabilities)) hits
    /\ Forall (fun hit =>
                 metadata_get "user_id" (doc_metadata hit.1) = Some "alice")
              hits.
Proof.
  eexists _, _.
  eapply (retrieve_context_contract (Cap := length_capabilities)
            (SO := length_score_order) "passport" "alice" alice_world).
  - vm_compute. reflexivity.
  - reflexivity.
  - vm_compute. reflexivity.
Defined.

(** ** Blank inputs *)

Lemma lstrip_all_space s : all_space s = true -> Py.lstrip s = "".
Proof.
  induction s as [|a s IH]; [done|]. cbn [all_space Py.lstrip].
  intros [-> Hs]%andb_true_iff. auto.
Qed.

Lemma rstrip_empty_all_space s : Py.rstrip s = "" <-> all_space s = true.
Proof.
  induction s as [|a s IH]; [done|]. cbn [all_space Py.rstrip].
  destruct (Py.rstrip s) as [|b r].
  - destruct (Py.isspace a); cbn [andb]; [|by split].
    split; intros _; [by apply IH|done].
  - split; [done|]. intros [_ Hs]%andb_true_iff. by apply IH in Hs.
Qed.

Lemma lstrip_head s :
  match Py.lstrip s with
  | EmptyString => all_space s = true
  | String a _ => Py.isspace a = false
  end.
Proof.
  induction s as [|a s IH]; [done|]. cbn [Py.lstrip all_space].
  destruct (Py.isspace a) eqn:E; [|done]. cbn [andb]. exact IH.
Qed.

(** [strip] leaves nothing exactly when the text is empty or made of
    white space only. *)
Lemma strip_empty_iff s : Py.strip s = "" <-> all_space s = true.
Proof.
  unfold Py.strip. split.
  - intros H. apply rstrip_empty_all_space in H.
    pose proof (lstrip_head s) as Hh.
    destruct (Py.lstrip s) as [|a t]; [done|].
    cbn [all_space] in H. apply andb_true_iff in H as [H _]. congruence.
  - intros H. by rewrite (lstrip_all_space s H).
Qed.

Lemma blank_test s :
  negb (Py.truthy s) || String.eqb (Py.strip s) "" = all_space s.
Proof.
  destruct (all_space s) eqn:E.
  - apply strip_empty_iff in E. rewrite E. apply orb_true_r.
  - destruct s as [|a s]; [done|]. cbn [Py.truthy negb orb].
    apply String.eqb_neq. intros H%strip_empty_iff. congruence.
Qed.

(** C6 -- Empty-input validation.  Whatever the agent, the endpoint
    answers a request whose query is empty or white space only with the
    client error 400 "Query cannot be empty", and a request whose user id
    is empty or white space only with a client error 400 ("User ID cannot
    be empty" when the query is not blank).  In both cases the world is
    returned as it was: [ask_question], and with it every storage,
    embedding and generation call, is not reached. *)
Theorem empty_input_rejected `{Cap : Capabilities}
    (agent_stream : string -> string -> World
                    -> (list Event * option exn) * World)
    (request : NexusFlowRequest) (w : World) :
  (all_space (req_query request) = true ->
     ask_question_endpoint agent_stream request w
     = (inl (mkHTTPException 400 "Query cannot be empty"), w))
  /\ (all_space (req_user_id request) = true ->
      exists detail,
        ask_question_endpoint agent_stream request w
        = (inl (mkHTTPException 400 detail), w)
        /\ (all_space (req_query request) = false ->
            detail = "User ID cannot be empty")).
Proof.
  unfold ask_question_endpoint. rewrite !blank_test. split.
  - by intros ->.
  - intros ->. destruct (all_space (req_query request)).
    + eexists. split; [reflexivity|done].
    + eexists. split; [reflexivity|done].
Qed.

Lemma empty_input_rejected_witness :
  ask_question_endpoint (Cap := length_capabilities)
    (scripted_agent (Cap := length_capabilities) passport_stream)
    (mkRequest "U1" "") alice_world
  = (inl (mkHTTPException 400 "Query cannot be empty"), alice_world)
  /\ exists detail,
       ask_question_endpoint (Cap := length_capabilities)
         (scripted_agent (Cap := length_capabilities) passport_stream)
         (mkRequest "  " "hello") alice_world
       = (inl (mkHTTPException 400 detail), alice_world)
       /\ (all_space "hello" = false -> detail = "User ID cannot be empty").
Proof.
  split.
  - apply (empty_input_rejected (Cap := length_capabilities)
             (scripted_agent (Cap := length_capabilities) passport_stream)
             (mkRequest "U1" "") alice_world).
    reflexivity.
  - apply (empty_input_rejected (Cap := length_capabilities)
             (scripted_agent (Cap := length_capabilities) passport_stream)
             (mkRequest "  " "hello") alice_world).
    reflexivity.
Defined.

(** [ask_question] itself has no guard: it hands any query, blank or not,
    to the agent. *)
Lemma ask_question_reaches_agent `{Cap : Capabilities}
    (agent_stream : string -> string -> World
                    -> (list Event * option exn) * World)
    (q u : string) (w : World) :
  (ask_question agent_stream q u w).2
  = (agent_stream (enhanced_query_of q u) (get_user_config u) w).2.
Proof.
  unfold ask_question.
  destruct (agent_stream _ _ w) as [[events [e|]] w']; reflexivity.
Qed.

(** ** The answer of [ask_question] *)

Section Answer.
Context `{Cap : Capabilities}.

Lemma streamed_messages_cons ev events :
  streamed_messages (ev :: events)
  = match ev_messages ev ≫= last with
    | Some m => m :: streamed_messages events
    | None => streamed_messages events
    end.
Proof. reflexivity. Qed.

Lemma omap_content_cons m (l : list Message) :
  omap msg_content (m :: l)
  = match msg_content m with
    | Some c => c :: omap msg_content l
    | None => omap msg_content l
    end.
Proof. reflexivity. Qed.

(** The contents gathered by the loop, in the words of [last_content]. *)
Lemma collect_content_fold events acc :
  fold_left collect_content events acc
  = (acc ++ omap msg_content
              (filter (fun m => has_content m = true)
                      (streamed_messages events)))%list.
Proof.
  revert acc. induction events as [|ev events IH]; intros acc.
  - cbn. by rewrite app_nil_r.
  - cbn [fold_left]. rewrite IH, streamed_messages_cons.
    unfold collect_content. destruct (ev_messages ev) as [msgs|]; [|done].
    cbn [mbind option_bind].
    destruct (last msgs) as [m|] eqn:Hlast.
    + assert ((0 <? length msgs)%nat = true) as ->.
      { destruct msgs; [done|]. apply Nat.ltb_lt. cbn. lia. }
      rewrite filter_cons.
      destruct (decide (has_content m = true)) as [Hm|Hm];
        unfold has_content in Hm;
        destruct (msg_content m) as [c|] eqn:Hc; try done.
      * rewrite Hm, omap_content_cons, Hc. by rewrite <- app_assoc.
      * by destruct (Py.truthy c).
    + by destruct (0 <? length msgs)%nat.
Qed.

Lemma last_omap_content (l : list Message) :
  Forall (fun m => has_content m = true) l ->
  last (omap msg_content l) = last l ≫= msg_content.
Proof.
  induction l as [|m l IH] using rev_ind; [done|].
  intros [Hl Hm]%Forall_app. apply (Forall_singleton _ m) in Hm.
  unfold has_content in Hm. destruct (msg_content m) as [c|] eqn:Hc; [|done].
  rewrite omap_app, !last_snoc. cbn. by rewrite Hc, last_snoc.
Qed.

Lemma last_response_content events :
  last (fold_left collect_content events []) = last_content events.
Proof.
  rewrite collect_content_fold. cbn [app]. unfold last_content.
  apply last_omap_content. apply Forall_forall. intros m Hm.
  by apply list_elem_of_filter in Hm as [Hm _].
Qed.

Lemma last_content_nonempty events c :
  last_content events = Some c -> c <> "".
Proof.
  unfold last_content. intros H.
  destruct (last _) as [m|] eqn:Hl; [|done]. cbn in H.
  apply last_Some_elem_of, list_elem_of_filter in Hl as [Hm _].
  unfold has_content in Hm. rewrite H in Hm. by destruct c.
Qed.

End Answer.

(** C9 -- Non-empty answer.  When the agent's stream ends without an
    exception, [ask_question] returns a string: the content of the last
    streamed message whose content is not empty, or, when no streamed
    message has content, the fixed text "I apologize, but I couldn't
    generate a response. Please try again."; the string is never empty.
    When the stream ends with an exception, [ask_question] raises it. *)
Theorem ask_question_answer `{Cap : Capabilities}
    (agent_stream : string -> string -> World
                    -> (list Event * option exn) * World)
    (q u : string) (w : World) :
  forall events raised w',
    agent_stream (enhanced_query_of q u) (get_user_config u) w
    = ((events, raised), w') ->
    match raised with
    | None =>
        exists answer,
          ask_question agent_stream q u w = (Returned answer, w')
          /\ answer
             = default
                 "I apologize, but I couldn't generate a response. Please try again."
                 (last_content events)
          /\ answer <> ""
    | Some e => ask_question agent_stream q u w = (Raised e, w')
    end.
Proof.
  intros events raised w' Hagent. unfold ask_question. rewrite Hagent.
  destruct raised as [e|]; [done|].
  rewrite last_response_content. eexists. split; [reflexivity|].
  destruct (last_content events) as [c|] eqn:Hc; cbn [default].
  - split; [done|]. by eapply last_content_nonempty.
  - split; [done|]. discriminate.
Qed.

Lemma ask_question_answer_witness :
  exists answer,
    ask_question (Cap := length_capabilities)
      (scripted_agent (Cap := length_capabilities) passport_stream)
      "passport?" "alice" alice_world
    = (Returned answer,
       log (CallGenerate (enhanced_query_of "passport?" "alice") "user_alice")
           alice_world)
    /\ answer = "Your passport number is A1234567."
    /\ answer <> "".
Proof.
  apply (ask_question_answer (Cap := length_capabilities)
           (scripted_agent (Cap := length_capabilities) passport_stream)
           "passport?" "alice" alice_world passport_stream None).
  reflexivity.
Defined.

(* ================================================================== *)
(** * Further properties of the code *)
(* ================================================================== *)

(** ** [store_user_embedding]: input file problems *)

(** X1 -- A missing input file is reported as "File not found: <path>"
    and nothing else happens: the world is returned as it was, so no
    directory is created, no embedding is requested and no UUID is
    drawn. *)
Theorem store_missing_file_untouched `{Cap : Capabilities}
    (fp u : string) (ds : option string) (sp : string) (w : World) :
  path_exists fp w = false ->
  store_user_embedding fp u ds sp w
  = (Returned (StoreError ("File not found: " +:+ fp)
                          ("Failed to find file " +:+ fp)), w).
Proof.
  intros Hfp. unfold store_user_embedding. unfold_M. by rewrite Hfp.
Qed.

Lemma store_missing_file_untouched_witness :
  store_user_embedding (Cap := length_capabilities)
    "missing.txt" "alice" None default_save_path alice_world
  = (Returned (StoreError "File not found: missing.txt"
                          "Failed to find file missing.txt"), alice_world).
Proof.
  apply (store_missing_file_untouched (Cap := length_capabilities)).
  vm_compute. reflexivity.
Defined.



(** ** [store_user_embedding]: the world after a success *)

Section StoreWorld.
Context `{Cap : Capabilities}.

(** The world a successful store leaves behind, call by call. *)
Lemma store_success_world fp u ds sp w id u' ds' p msg w' :
  store_user_embedding fp u ds sp w
  = (Returned (StoreSuccess id u' ds' p msg), w') ->
  exists text vs0 v first_call,
    let document := new_document text (data_source_of fp ds) u fp in
    files w !! fp = Some text
    /\ p = vector_store_path_of sp u
    /\ id = uuid_source w (uuid_count w)
    /\ embed_text text = inr v
    /\ vec_len v = index_d vs0
    /\ docstore vs0 !! id = None
    /\ (indexes w !! p = Some vs0 /\ first_call = CallLoad p
        \/ (path_exists p w = false /\ indexes w !! p = None
            /\ first_call = CallEmbed "hello world"
            /\ exists probe, embed_text "hello world" = inr probe
                             /\ vs0 = FAISS_new (vec_len probe)))
    /\ w' = set_indexes (<[p := FAISS_add vs0 id document v]> (indexes w))
              (log (CallSave p)
                 (log (CallEmbed text)
                    (set_uuid_count (S (uuid_count w))
                       (log first_call
                          (set_dirs ({[ user_dir_of sp u ]} ∪ dirs w) w))))).
Proof.
  intros H. unfold store_user_embedding in H. unfold_M.
  destruct (path_exists fp w) eqn:Hfp; cbn [negb] in H; [|done].
  unfold read_text in H.
  destruct (fault w (OpRead fp)); [done|].
  destruct (files w !! fp) as [text|] eqn:Hf; [|done].
  destruct (makedirs _ w) as [[[]|e] w1] eqn:Hmk; [|done].
  apply makedirs_inv in Hmk as [-> Hd].
  set (p0 := vector_store_path_of sp u) in *.
  set (w1 := set_dirs _ w) in *.
  destruct (path_exists p0 w1) eqn:Hp.
  - destruct (load_local p0 w1) as [[vs0|e] w2] eqn:Hl; [|done].
    apply load_local_inv in Hl as (Hix & Hflt & ->).
    unfold uuid4 in H.
    destruct (add_documents vs0 _ _ _) as [[vs'|e] w3] eqn:Ha; [|done].
    apply add_documents_inv in Ha as (v & Hv & Hdim & Hfresh & -> & ->).
    destruct (save_local p0 _ _) as [[[]|e] w4] eqn:Hs; [|done].
    apply save_local_inv in Hs as [Hsf ->].
    injection H as <- <- <- <- <- <-.
    exists text, vs0, v, (CallLoad p0). cbn zeta.
    split; [done|]. split; [done|]. split; [done|]. split; [done|].
    split; [done|]. split; [done|]. split; [by left|]. reflexivity.
  - unfold embed_query at 1 in H.
    destruct (embed_text "hello world") as [e|probe] eqn:Hprobe; [done|].
    unfold uuid4 in H.
    destruct (add_documents (FAISS_new _) _ _ _) as [[vs'|e] w3] eqn:Ha;
      [|done].
    apply add_documents_inv in Ha as (v & Hv & Hdim & Hfresh & -> & ->).
    destruct (save_local p0 _ _) as [[[]|e] w4] eqn:Hs; [|done].
    apply save_local_inv in Hs as [Hsf ->].
    injection H as <- <- <- <- <- <-.
    exists text, (FAISS_new (vec_len probe)), v, (CallEmbed "hello world").
    cbn zeta.
    split; [done|]. split; [done|]. split; [done|]. split; [done|].
    split; [done|]. split; [done|]. split; [|reflexivity].
    right. apply path_exists_more_dirs in Hp as Hp'.
    split; [done|]. split; [|eauto].
    unfold path_exists in Hp'. apply orb_false_iff in Hp' as [_ Hi].
    apply bool_decide_eq_false in Hi.
    destruct (indexes w !! p0); [|done]. exfalso. apply Hi. eauto.
Qed.

End StoreWorld.

(** A save that fails although no write fails was refused at its first
    step, the creation of the folder: the path is a regular file. *)
Lemma save_local_refused `{Cap : Capabilities}
    (p : string) (vs : FAISS) (w : World) (e : exn) (w' : World) :
  fault w (OpSave p) = None ->
  save_local p vs w = (Raised e, w') ->
  is_Some (files w !! p) /\ w' = log (CallSave p) w.
Proof.
  unfold save_local. cbn [fault files log]. intros ->.
  destruct (bool_decide _) eqn:Hfile; [|done].
  intros [= <- <-]. by apply bool_decide_eq_true in Hfile.
Qed.

(** X3 -- A store that fails before anything of the index is written
    writes nothing: when no write of the save itself fails, a call that
    does not succeed, whether it returns an error dictionary or raises,
    leaves every saved index and every file as before (only the user's
    directory may have been created and a UUID drawn).  The failures
    covered are a missing or unreadable file, a failure of [makedirs], of
    the load, of the embedding service or of the add, and an index path
    that is a regular file. *)
Theorem store_failure_writes_nothing `{Cap : Capabilities}
    (fp u : string) (ds : option string) (sp : string) (w : World)
    (o : outcome StoreResponse) (w' : World) :
  fault w (OpSave (vector_store_path_of sp u)) = None ->
  store_user_embedding fp u ds sp w = (o, w') ->
  (forall id u' ds' p m, o <> Returned (StoreSuccess id u' ds' p m)) ->
  indexes w' = indexes w /\ files w' = files w.
Proof.
  intros Hsave H Hfail. unfold store_user_embedding in H. unfold_M.
  destruct (path_exists fp w); cbn [negb] in H.
  2:{ by injection H as <- <-. }
  unfold read_text in H.
  destruct (fault w (OpRead fp)).
  { by injection H as <- <-. }
  destruct (files w !! fp) as [text|].
  2:{ by injection H as <- <-. }
  destruct (makedirs _ w) as [[[]|x] w1] eqn:Hmk;
    apply makedirs_effect in Hmk as (Hf & Hi & Hflt & _).
  2:{ by injection H as <- <-. }
  set (p := vector_store_path_of sp u) in *.
  destruct (path_exists p w1).
  - destruct (load_local p w1) as [[vs0|x] w2] eqn:Hl;
      apply load_local_effect in Hl as ->.
    2:{ by injection H as <- <-. }
    unfold uuid4 in H.
    destruct (add_documents vs0 _ _ _) as [[vs'|x] w3] eqn:Ha;
      apply add_documents_effect in Ha as ->.
    2:{ by injection H as <- <-. }
    destruct (save_local p _ _) as [[[]|x] w4] eqn:Hs.
    + injection H as <- <-. by edestruct Hfail.
    + apply save_local_refused in Hs as [_ ->];
        [by injection H as <- <-|].
      cbn. by rewrite Hflt.
  - destruct (embed_query _ w1) as [[probe|x] w2] eqn:He;
      apply embed_query_effect in He as ->.
    2:{ by injection H as <- <-. }
    unfold uuid4 in H.
    destruct (add_documents _ _ _ _) as [[vs'|x] w3] eqn:Ha;
      apply add_documents_effect in Ha as ->.
    2:{ by injection H as <- <-. }
    destruct (save_local p _ _) as [[[]|x] w4] eqn:Hs.
    + injection H as <- <-. by edestruct Hfail.
    + apply save_local_refused in Hs as [_ ->];
        [by injection H as <- <-|].
      cbn. by rewrite Hflt.
Qed.

Lemma store_failure_writes_nothing_witness :
  (store_user_embedding (Cap := length_capabilities)
     "empty.txt" "alice" None default_save_path empty_file_world).1
  = Returned (StoreError "empty input"
                         "Failed to store embedding for user alice")
  /\ indexes (store_user_embedding (Cap := length_capabilities)
                "empty.txt" "alice" None default_save_path
                empty_file_world).2
     = indexes empty_file_world.
Proof.
  split; [vm_compute; reflexivity|].
  eapply (store_failure_writes_nothing (Cap := length_capabilities)
            "empty.txt" "alice" None default_save_path empty_file_world).
  - reflexivity.
  - apply surjective_pairing.
  - intros id u' ds' p m. vm_compute. discriminate.
Defined.

(** X4 -- A successful store only appends.  The saved store of the user
    afterwards keeps the dimension, has the earlier vectors as a prefix
    of its vectors with exactly one more at the end, holds every earlier
    document unchanged under its id, and holds the new document under the
    new id with the text of the file and the metadata [source],
    [user_id], [filename]. *)
Theorem store_only_appends `{Cap : Capabilities}
    (fp u : string) (ds : option string) (sp : string) (w : World)
    (id u' ds' p msg : string) (w' : World) (vs0 : FAISS) :
  store_user_embedding fp u ds sp w
  = (Returned (StoreSuccess id u' ds' p msg), w') ->
  indexes w !! vector_store_path_of sp u = Some vs0 ->
  exists vs' text v,
    indexes w' !! vector_store_path_of sp u = Some vs'
    /\ files w !! fp = Some text
    /\ index_d vs' = index_d vs0
    /\ index_vectors vs' = (index_vectors vs0 ++ [v])%list
    /\ (forall id' doc, docstore vs0 !! id' = Some doc ->
                        docstore vs' !! id' = Some doc)
    /\ docstore vs0 !! id = None
    /\ docstore vs' !! id
       = Some (mkDocument (Some id) text
                 [("source", data_source_of fp ds); ("user_id", u);
                  ("filename", fp)]).
Proof.
  intros H Hvs0. apply store_success_world in H
    as (text & vs & v & c & Hf & -> & -> & Hv & Hdim & Hfresh & Hc & ->).
  destruct Hc as [[Hix _]|(_ & Hnone & _)]; [|congruence].
  rewrite Hvs0 in Hix. injection Hix as <-.
  exists (FAISS_add vs0 (uuid_source w (uuid_count w))
            (new_document text (data_source_of fp ds) u fp) v), text, v.
  cbn [indexes set_indexes]. rewrite lookup_insert_eq.
  split; [done|]. split; [done|]. split; [done|]. split; [done|].
  unfold FAISS_add. cbn [docstore]. split; [|split; [done|]].
  - intros id' doc Hdoc. rewrite lookup_insert_ne; [done|]. congruence.
  - by rewrite lookup_insert_eq.
Qed.

Lemma store_only_appends_witness :
  exists vs' text v,
    indexes alice_world !! "user_embeddings/alice/alice_faiss_index"
    = Some vs'
    /\ files alice_world_1 !! "b.TXT" = Some text
    /\ index_vectors vs'
       = (index_vectors
            (FAISS_add (Cap := length_capabilities) (FAISS_new 1)
               "00000000-0000-4000-8000-0"
               (new_document "hello" "txt" "alice" "a.txt") 5) ++ [v])%list.
Proof.
  destruct (store_only_appends (Cap := length_capabilities)
              "b.TXT" "alice" None default_save_path alice_world_1
              "00000000-0000-4000-8000-1" "alice" "txt"
              "user_embeddings/alice/alice_faiss_index"
              "Successfully stored embedding for user alice" alice_world
              (FAISS_add (Cap := length_capabilities) (FAISS_new 1)
                 "00000000-0000-4000-8000-0"
                 (new_document "hello" "txt" "alice" "a.txt") 5))
    as (vs' & text & v & H1 & H2 & _ & H4 & _).
  - vm_compute. reflexivity.
  - vm_compute. reflexivity.
  - exists vs', text, v. by repeat split.
Defined.

(** X5 -- What a successful store asks of its collaborators.  For a user
    who already has an index: one load of the index, one embedding of the
    file's text, one save, in this order.  For a user without an index:
    the probe embedding of "hello world", one embedding of the file's
    text, one save.  Exactly one UUID is drawn. *)
Theorem store_calls `{Cap : Capabilities}
    (fp u : string) (ds : option string) (sp : string) (w : World)
    (id u' ds' p msg : string) (w' : World) :
  store_user_embedding fp u ds sp w
  = (Returned (StoreSuccess id u' ds' p msg), w') ->
  exists text,
    files w !! fp = Some text
    /\ uuid_count w' = S (uuid_count w)
    /\ (is_Some (indexes w !! p) ->
        calls_since w w' [CallSave p; CallEmbed text; CallLoad p])
    /\ (indexes w !! p = None ->
        calls_since w w'
          [CallSave p; CallEmbed text; CallEmbed "hello world"]).
Proof.
  intros H. apply store_success_world in H
    as (text & vs & v & c & Hf & -> & -> & Hv & Hdim & Hfresh & Hc & ->).
  exists text. split; [done|]. split; [done|].
  unfold calls_since.
  destruct Hc as [[Hix ->]|(_ & Hnone & -> & _)]; split; try done.
  - rewrite Hix. done.
  - rewrite Hnone. by intros [? ?].
Qed.

Lemma store_calls_witness :
  calls_since (Cap := length_capabilities)
    (world_with (Cap := length_capabilities) two_files) alice_world_1
    [CallSave "user_embeddings/alice/alice_faiss_index"; CallEmbed "hello";
     CallEmbed "hello world"]
  /\ calls_since (Cap := length_capabilities) alice_world_1 alice_world
       [CallSave "user_embeddings/alice/alice_faiss_index";
        CallEmbed "passport A1234567";
        CallLoad "user_embeddings/alice/alice_faiss_index"].
Proof.
  split.
  - destruct (store_calls (Cap := length_capabilities)
                "a.txt" "alice" None default_save_path
                (world_with (Cap := length_capabilities) two_files)
                "00000000-0000-4000-8000-0" "alice" "txt"
                "user_embeddings/alice/alice_faiss_index"
                "Successfully stored embedding for user alice" alice_world_1)
      as (text & Hf & _ & _ & Hnew).
    { vm_compute. reflexivity. }
    assert (text = "hello") as -> by (vm_compute in Hf; congruence).
    apply Hnew. vm_compute. reflexivity.
  - destruct (store_calls (Cap := length_capabilities)
                "b.TXT" "alice" None default_save_path alice_world_1
                "00000000-0000-4000-8000-1" "alice" "txt"
                "user_embeddings/alice/alice_faiss_index"
                "Successfully stored embedding for user alice" alice_world)
      as (text & Hf & _ & Hold & _).
    { vm_compute. reflexivity. }
    assert (text = "passport A1234567") as ->
      by (vm_compute in Hf; congruence).
    apply Hold. vm_compute. eauto.
Defined.

(** ** Store, then search *)

Section RoundTrip.
Context `{Cap : Capabilities}.

Lemma slice_to_one {A} (k : Z) (x : A) : 1 <= k -> Py.slice_to k [x] = [x].
Proof.
  intros Hk. rewrite slice_to_nonneg by lia.
  destruct (Z.to_nat k) as [|n] eqn:E; [lia|]. cbn. by destruct n.
Qed.

(** A search in the store made of one new document. *)
Lemma search_single_document q u k sp w id document v qv :
  let p := vector_store_path_of sp u in
  indexes w !! p = Some (FAISS_add (FAISS_new (vec_len v)) id document v) ->
  fault w (OpLoad p) = None ->
  metadata_get "user_id" (doc_metadata document) = Some u ->
  embed_text q = inr qv -> vec_len qv = vec_len v -> 1 <= k ->
  search_user_embeddings q u k None sp w
  = (Returned
       (SearchSuccess u q
          [ {| content := page_content document;
               result_metadata := doc_metadata document;
               similarity_score := l2_distance qv v |} ] 1),
     log (CallNearest fetch_k) (log (CallEmbed q) (log (CallLoad p) w))).
Proof.
  intros p Hix Hld Huser Hq Hdim Hk.
  unfold search_user_embeddings. unfold_M. fold p.
  rewrite (index_exists p w _ Hix). cbn [negb].
  unfold load_local. cbn [fault indexes log]. rewrite Hld, Hix.
  unfold similarity_search_with_score, embed_query. unfold_M. rewrite Hq.
  cbn [index_d FAISS_add FAISS_new]. rewrite Hdim, Nat.eqb_refl. cbn [negb].
  unfold index_search.
  cbn [index_vectors FAISS_add FAISS_new app imap merge_sort].
  unfold merge_sort. cbn.
  rewrite map_size_empty, lookup_insert_eq, lookup_insert_eq.
  cbn [doc_metadata]. unfold filter_dict_of, filter_matches.
  cbn [forallb fst snd]. rewrite Huser.
  rewrite (bool_decide_eq_true_2 (Some u = Some u)) by done.
  cbn [andb]. by rewrite slice_to_one by lia.
Qed.

(** The first store of a user leaves the store of one document. *)
Lemma first_store_world fp u ds sp w id u' ds' p msg w' probe :
  store_user_embedding fp u ds sp w
  = (Returned (StoreSuccess id u' ds' p msg), w') ->
  path_exists (vector_store_path_of sp u) w = false ->
  embed_text "hello world" = inr probe ->
  exists text v,
    files w !! fp = Some text
    /\ embed_text text = inr v
    /\ vec_len v = vec_len probe
    /\ fault w' = fault w
    /\ indexes w' !! vector_store_path_of sp u
       = Some (FAISS_add (FAISS_new (vec_len v)) id
                 (new_document text (data_source_of fp ds) u fp) v).
Proof.
  intros H Hex Hprobe. apply store_success_world in H
    as (text & vs & v & c & Hf & -> & -> & Hv & Hdim & Hfresh & Hc & ->).
  destruct Hc as [[Hix _]|(_ & _ & _ & probe' & Hprobe' & ->)].
  { by rewrite (index_exists _ _ _ Hix) in Hex. }
  rewrite Hprobe in Hprobe'. injection Hprobe' as <-.
  cbn [index_d FAISS_new] in Hdim.
  exists text, v. split; [done|]. split; [done|]. split; [done|].
  split; [done|]. cbn [indexes set_indexes].
  by rewrite lookup_insert_eq, Hdim.
Qed.

End RoundTrip.

(** X6 -- Store, then search.  After the first successful store of a
    user, a search of that user with [k >= 1] and no source filter, for a
    query the service embeds in the same dimension, succeeds with exactly
    one result: the text of the stored file, the metadata [source],
    [user_id], [filename] given at the store, and the distance between
    the embeddings of the query and of the text. *)
Theorem store_then_search_finds `{Cap : Capabilities}
    (fp u : string) (ds : option string) (sp : string) (w : World)
    (id u' ds' p msg : string) (w' : World)
    (q : string) (qv probe : Vec) (k : Z) :
  store_user_embedding fp u ds sp w
  = (Returned (StoreSuccess id u' ds' p msg), w') ->
  path_exists (vector_store_path_of sp u) w = false ->
  fault w (OpLoad (vector_store_path_of sp u)) = None ->
  embed_text "hello world" = inr probe ->
  embed_text q = inr qv -> vec_len qv = vec_len probe -> 1 <= k ->
  exists text v w'',
    files w !! fp = Some text
    /\ embed_text text = inr v
    /\ search_user_embeddings q u k None sp w'
       = (Returned
            (SearchSuccess u q
               [ {| content := text;
                    result_metadata :=
                      [("source", data_source_of fp ds); ("user_id", u);
                       ("filename", fp)];
                    similarity_score := l2_distance qv v |} ] 1), w'').
Proof.
  intros H Hex Hld Hprobe Hq Hdim Hk.
  destruct (first_store_world _ _ _ _ _ _ _ _ _ _ _ _ H Hex Hprobe)
    as (text & v & Hf & Hv & Hlen & Hflt & Hix).
  exists text, v. eexists. split; [done|]. split; [done|].
  apply (search_single_document q u k sp w' id
           (new_document text (data_source_of fp ds) u fp) v qv);
    [done|by rewrite Hflt|done|done|congruence|done].
Qed.

Lemma store_then_search_finds_witness :
  exists text v w'',
    files (world_with (Cap := length_capabilities) two_files) !! "a.txt"
    = Some text
    /\ @embed_text length_capabilities text = inr v
    /\ search_user_embeddings (Cap := length_capabilities)
         "hallo" "alice" 3 None default_save_path alice_world_1
       = (Returned
            (SearchSuccess "alice" "hallo"
               [ {| content := text;
                    result_metadata :=
                      [("source", "txt"); ("user_id", "alice");
                       ("filename", "a.txt")];
                    similarity_score := @l2_distance length_capabilities 5 v |} ]
               1), w'').
Proof.
  apply (store_then_search_finds (Cap := length_capabilities)
           "a.txt" "alice" None default_save_path
           (world_with (Cap := length_capabilities) two_files)
           "00000000-0000-4000-8000-0" "alice" "txt"
           "user_embeddings/alice/alice_faiss_index"
           "Successfully stored embedding for user alice" alice_world_1
           "hallo" 5 11 3); try (vm_compute; reflexivity).
  lia.
Defined.

(** X7 -- Store, then retrieve.  After the first successful store of a
    user under the default base path, [retrieve_context] for that user
    returns one block "Source: <metadata>", newline, "Content: <text of
    the file>" and the one document rebuilt from it (without id). *)
Theorem store_then_retrieve_context `{Cap : Capabilities}
    (fp u : string) (ds : option string) (w : World)
    (id u' ds' p msg : string) (w' : World)
    (q : string) (qv probe : Vec) :
  store_user_embedding fp u ds default_save_path w
  = (Returned (StoreSuccess id u' ds' p msg), w') ->
  path_exists (vector_store_path_of default_save_path u) w = false ->
  fault w (OpLoad (vector_store_path_of default_save_path u)) = None ->
  embed_text "hello world" = inr probe ->
  embed_text q = inr qv -> vec_len qv = vec_len probe ->
  exists text w'',
    files w !! fp = Some text
    /\ let meta := [("source", data_source_of fp ds); ("user_id", u);
                    ("filename", fp)] in
       retrieve_context q u w'
       = (Returned
            ("Source: " +:+ metadata_str meta +:+ nl
               +:+ "Content: " +:+ text,
             [mkDocument None text meta]), w'').
Proof.
  intros H Hex Hld Hprobe Hq Hdim.
  destruct (first_store_world _ _ _ _ _ _ _ _ _ _ _ _ H Hex Hprobe)
    as (text & v & Hf & Hv & Hlen & Hflt & Hix).
  exists text. eexists. split; [done|]. cbn zeta.
  unfold retrieve_context. unfold_M.
  rewrite (search_single_document q u 3 default_save_path w' id
             (new_document text (data_source_of fp ds) u fp) v qv);
    [reflexivity|done|by rewrite Hflt|done|done|congruence|lia].
Qed.

Lemma store_then_retrieve_context_witness :
  exists text w'',
    files (world_with (Cap := length_capabilities) two_files) !! "a.txt"
    = Some text
    /\ retrieve_context (Cap := length_capabilities)
         "hallo" "alice" alice_world_1
       = (Returned
            ("Source: "
               +:+ metadata_str (Cap := length_capabilities)
                     [("source", "txt"); ("user_id", "alice");
                      ("filename", "a.txt")]
               +:+ nl +:+ "Content: " +:+ text,
             [mkDocument None text
                [("source", "txt"); ("user_id", "alice");
                 ("filename", "a.txt")]]), w'').
Proof.
  apply (store_then_retrieve_context (Cap := length_capabilities)
           "a.txt" "alice" None
           (world_with (Cap := length_capabilities) two_files)
           "00000000-0000-4000-8000-0" "alice" "txt"
           "user_embeddings/alice/alice_faiss_index"
           "Successfully stored embedding for user alice" alice_world_1
           "hallo" 5 11); vm_compute; reflexivity.
Defined.

(** ** [search_user_embeddings]: filters, [k], cost *)

Section SearchMore.
Context `{Cap : Capabilities}.

Lemma filter_dict_names_source u src m :
  Py.truthy src = true ->
  filter_matches (filter_dict_of u (Some src)) m = true ->
  metadata_get "source" m = Some src.
Proof.
  intros Hsrc. unfold filter_dict_of. rewrite Hsrc.
  unfold filter_matches. cbn [forallb fst snd].
  intros [_ [H _]%andb_true_iff]%andb_true_iff.
  by apply bool_decide_eq_true in H.
Qed.

Lemma collect_hits_length vs f hits docs :
  collect_hits vs f hits = inr docs -> (length docs <= length hits)%nat.
Proof.
  revert docs. induction hits as [|[i s] hits IH]; intros docs; simpl.
  - intros [= <-]. done.
  - destruct (index_to_docstore_id vs !! i) as [id|]; [|done].
    destruct (docstore vs !! id) as [doc|]; [|done].
    destruct (collect_hits vs f hits) as [e|rest]; [done|].
    specialize (IH rest eq_refl).
    destruct (filter_matches f (doc_metadata doc)); intros [= <-]; simpl; lia.
Qed.

(** The hits before the cut to [k] do not depend on [k], and are at most
    [fetch_k]. *)
Lemma similarity_search_before_cut vs q k f w r w' :
  similarity_search_with_score vs q k f w = (Returned r, w') ->
  exists docs,
    r = Py.slice_to k docs
    /\ (length docs <= fetch_k)%nat
    /\ forall k', similarity_search_with_score vs q k' f w
                  = (Returned (Py.slice_to k' docs), w').
Proof.
  unfold similarity_search_with_score, embed_query. unfold_M.
  destruct (embed_text q) as [e|v]; [done|].
  destruct (negb _); [done|].
  destruct (collect_hits _ _ _) as [e|docs] eqn:E; [done|].
  intros [= <- <-]. exists docs. split; [done|]. split; [|done].
  apply collect_hits_length in E. etrans; [exact E|].
  unfold index_search. rewrite length_take. lia.
Qed.

Lemma length_slice_to_le {A} (k : Z) (l : list A) :
  (length (Py.slice_to k l) <= length l)%nat.
Proof.
  unfold Py.slice_to. destruct (0 <=? k); rewrite length_take; lia.
Qed.

Lemma take_prefix_of {A} (a b : nat) (l : list A) :
  (a <= b)%nat -> take a l `prefix_of` take b l.
Proof.
  intros Hab. exists (drop a (take b l)).
  rewrite <- (take_drop a (take b l)) at 1.
  f_equal. rewrite take_take. f_equal. lia.
Qed.

End SearchMore.

(** X8 -- The source filter.  With a non-empty [filter_source], every
    result of a successful search carries that source and the user's id
    in its metadata.  An empty [filter_source] is no filter: the search
    is the one without [filter_source]. *)
Theorem search_source_filter `{Cap : Capabilities}
    (q u : string) (k : Z) (src sp : string) (w : World) :
  (Py.truthy src = true ->
   forall u' q' results n w',
     search_user_embeddings q u k (Some src) sp w
     = (Returned (SearchSuccess u' q' results n), w') ->
     Forall (fun r =>
               metadata_get "source" (result_metadata r) = Some src
               /\ metadata_get "user_id" (result_metadata r) = Some u)
            results)
  /\ search_user_embeddings q u k (Some "") sp w
     = search_user_embeddings q u k None sp w.
Proof.
  split; [|reflexivity].
  intros Hsrc u' q' results n w'.
  unfold search_user_embeddings. unfold_M.
  destruct (negb (path_exists _ w)); [done|].
  destruct (load_local _ w) as [[vs|e] w1]; [|done].
  destruct (similarity_search_with_score vs q k _ w1)
    as [[docs|e] w2] eqn:E; [|done].
  intros [= <- <- <- <- <-].
  apply similarity_search_filtered in E.
  apply Forall_forall. intros r Hr.
  apply list_elem_of_fmap in Hr as (d & -> & Hd). cbn.
  rewrite Forall_forall in E. specialize (E d Hd). split.
  - by eapply filter_dict_names_source.
  - by eapply filter_dict_names_user.
Qed.

Lemma search_source_filter_witness :
  exists results w',
    search_user_embeddings (Cap := length_capabilities)
      "passport" "alice" 3 (Some "txt") default_save_path alice_world
    = (Returned (SearchSuccess "alice" "passport" results 2), w')
    /\ Forall (fun r =>
                 metadata_get "source" (result_metadata r) = Some "txt"
                 /\ metadata_get "user_id" (result_metadata r)
                    = Some "alice")
              results.
Proof.
  assert (exists results w',
            search_user_embeddings (Cap := length_capabilities)
              "passport" "alice" 3 (Some "txt") default_save_path alice_world
            = (Returned (SearchSuccess "alice" "passport" results 2), w'))
    as (results & w' & Hs).
  { eexists _, _. vm_compute. reflexivity. }
  exists results, w'. split; [exact Hs|].
  destruct (search_source_filter (Cap := length_capabilities)
              "passport" "alice" 3 "txt" default_save_path alice_world)
    as [Hfilter _].
  eapply Hfilter; [reflexivity|exact Hs].
Defined.

(** X9 -- The role of [k].  A successful search never has more than 20
    results, whatever [k]: the vector store fetches the 20 nearest
    before it filters and cuts.  For [0 <= k <= k'], the search with [k']
    succeeds as well and the results for [k] are a prefix of the results
    for [k']: a larger [k] only adds results at the end. *)
Theorem search_k_prefix `{Cap : Capabilities}
    (q u : string) (k : Z) (fs : option string) (sp : string) (w : World)
    (u1 q1 : string) (results : list SearchResult) (n : nat) (w' : World) :
  search_user_embeddings q u k fs sp w
  = (Returned (SearchSuccess u1 q1 results n), w') ->
  (length results <= 20)%nat
  /\ forall k', 0 <= k -> k <= k' ->
       exists results',
         search_user_embeddings q u k' fs sp w
         = (Returned (SearchSuccess u1 q1 results' (length results')), w')
         /\ results `prefix_of` results'.
Proof.
  unfold search_user_embeddings. unfold_M.
  destruct (negb (path_exists _ w)); [done|].
  destruct (load_local _ w) as [[vs|e] w1]; [|done].
  destruct (similarity_search_with_score vs q k _ w1)
    as [[r|e] w2] eqn:E; [|done].
  intros [= <- <- <- <- <-].
  apply similarity_search_before_cut in E as (docs & -> & Hlen & Hk').
  split.
  - rewrite length_map. etrans; [apply length_slice_to_le|exact Hlen].
  - intros k' Hk Hkk'. rewrite Hk'. eexists. split; [reflexivity|].
    rewrite !slice_to_nonneg by lia.
    destruct (take_prefix_of (Z.to_nat k) (Z.to_nat k') docs) as [rest ->];
      [lia|].
    rewrite map_app. by eexists.
Qed.

Lemma search_k_prefix_witness :
  exists results1 results3,
    (search_user_embeddings (Cap := length_capabilities)
       "passport" "alice" 1 None default_save_path alice_world).1
    = Returned (SearchSuccess "alice" "passport" results1 1)
    /\ search_user_embeddings (Cap := length_capabilities)
         "passport" "alice" 3 None default_save_path alice_world
       = (Returned (SearchSuccess "alice" "passport" results3
                      (length results3)),
          (search_user_embeddings (Cap := length_capabilities)
             "passport" "alice" 1 None default_save_path alice_world).2)
    /\ results1 `prefix_of` results3.
Proof.
  destruct (search_k_prefix (Cap := length_capabilities)
              "passport" "alice" 1 None default_save_path alice_world
              "alice" "passport"
              [ {| content := "hello";
                   result_metadata :=
                     [("source", "txt"); ("user_id", "alice");
                      ("filename", "a.txt")];
                   similarity_score := (9 : @Score length_capabilities) |} ]
              1
              (search_user_embeddings (Cap := length_capabilities)
                 "passport" "alice" 1 None default_save_path alice_world).2)
    as [_ H].
  { vm_compute. reflexivity. }
  destruct (H 3) as (results3 & H3 & Hpre); [lia|lia|].
  eexists _, results3. split; [vm_compute; reflexivity|].
  split; [exact H3|exact Hpre].
Defined.

(** X10 -- A search only reads.  Whatever its outcome, a search leaves
    the files, the directories, the saved indexes and the UUID counter as
    they were.  A successful search costs exactly one load of the index,
    then one embedding of the query, then one nearest-neighbour search
    for 20 positions. *)
Theorem search_only_reads `{Cap : Capabilities}
    (q u : string) (k : Z) (fs : option string) (sp : string) (w : World)
    (o : outcome SearchResponse) (w' : World) :
  search_user_embeddings q u k fs sp w = (o, w') ->
  files w' = files w /\ dirs w' = dirs w /\ indexes w' = indexes w
  /\ uuid_count w' = uuid_count w
  /\ (forall u1 q1 results n,
        o = Returned (SearchSuccess u1 q1 results n) ->
        calls_since w w'
          [CallNearest 20; CallEmbed q;
           CallLoad (vector_store_path_of sp u)]).
Proof.
  unfold search_user_embeddings, calls_since. unfold_M.
  destruct (negb (path_exists _ w)).
  { intros [= <- <-]. by repeat split. }
  destruct (load_local _ w) as [[vs|e] w1] eqn:Hl;
    apply load_local_effect in Hl as ->.
  2:{ intros [= <- <-]. by repeat split. }
  unfold similarity_search_with_score, embed_query. unfold_M.
  destruct (embed_text q) as [e|v].
  { intros [= <- <-]. by repeat split. }
  destruct (negb _).
  { intros [= <- <-]. by repeat split. }
  destruct (collect_hits _ _ _); intros [= <- <-]; by repeat split.
Qed.

Lemma search_only_reads_witness :
  indexes (search_user_embeddings (Cap := length_capabilities)
             "passport" "alice" 3 None default_save_path alice_world).2
  = indexes alice_world
  /\ calls_since (Cap := length_capabilities) alice_world
       (search_user_embeddings (Cap := length_capabilities)
          "passport" "alice" 3 None default_save_path alice_world).2
       [CallNearest 20; CallEmbed "passport";
        CallLoad "user_embeddings/alice/alice_faiss_index"].
Proof.
  destruct (search_only_reads (Cap := length_capabilities)
              "passport" "alice" 3 None default_save_path alice_world
              (search_user_embeddings (Cap := length_capabilities)
                 "passport" "alice" 3 None default_save_path alice_world).1
              (search_user_embeddings (Cap := length_capabilities)
                 "passport" "alice" 3 None default_save_path alice_world).2)
    as (_ & _ & Hi & _ & Hc).
  { symmetry. apply surjective_pairing. }
  split; [exact Hi|]. eapply Hc. vm_compute. reflexivity.
Defined.

(** ** [get_user_info]: the histogram of data sources *)

Section Histogram.
Context `{Cap : Capabilities}.

Lemma histogram_total_insert_new (m : gmap string nat) s n :
  m !! s = None ->
  histogram_total (<[s := n]> m) = (n + histogram_total m)%nat.
Proof.
  intros Hs. unfold histogram_total.
  rewrite map_fold_insert_L; [done| |done]. intros; lia.
Qed.

(** Counting one more document under [s] raises the total by one. *)
Lemma histogram_total_count (m : gmap string nat) s :
  histogram_total (<[s := (default 0%nat (m !! s) + 1)%nat]> m)
  = S (histogram_total m).
Proof.
  destruct (m !! s) as [n|] eqn:Hs; cbn [default].
  - rewrite <- (insert_delete_eq m s (n + 1)%nat).
    rewrite <- (insert_delete_id m s n Hs) at 2.
    rewrite !histogram_total_insert_new by apply lookup_delete_eq. lia.
  - rewrite histogram_total_insert_new by done. lia.
Qed.

Lemma count_sources_counts l acc m :
  count_sources l acc = inr m ->
  (forall s, default 0%nat (m !! s)
             = (default 0 (acc !! s) + count_source s l)%nat)
  /\ histogram_total m = (histogram_total acc + length l)%nat
  /\ (forall s, acc !! s <> Some 0%nat -> m !! s <> Some 0%nat).
Proof.
  revert acc. induction l as [|[msg|doc] l IH]; intros acc;
    cbn [count_sources count_source length].
  - intros [= <-]. repeat split; auto with lia.
  - done.
  - fold (doc_source doc). intros H. apply IH in H as (Hc & Ht & Hz).
    split; [|split].
    + intros s. rewrite Hc, lookup_insert.
      destruct (String.eqb_spec (doc_source doc) s) as [Heq|Hne].
      * rewrite decide_True by done. cbn [default]. unfold id.
        rewrite Heq. lia.
      * rewrite decide_False by done. lia.
    + rewrite Ht, histogram_total_count. lia.
    + intros s Hs. apply Hz. rewrite lookup_insert. case_decide; [|done].
      intros [= H0]. lia.
Qed.

End Histogram.

(** X11 -- The histogram of [get_user_info].  In a successful answer,
    [data_sources] maps each source to the number of the user's documents
    whose metadata give that source (documents without a source count
    under "unknown"); no source is listed with a count of zero; and the
    counts add up to [total_documents]. *)
Theorem info_histogram `{Cap : Capabilities}
    (u sp : string) (w : World) (u' : string) (n : nat) (p : string)
    (sources : gmap string nat) (sz : nat) (w' : World) :
  get_user_info u sp w = (Returned (InfoSuccess u' n p sources sz), w') ->
  exists vs,
    indexes w !! vector_store_path_of sp u = Some vs
    /\ n = size (index_to_docstore_id vs)
    /\ (forall s, default 0%nat (sources !! s)
                  = count_source s (all_docs_of vs))
    /\ (forall s, sources !! s <> Some 0%nat)
    /\ histogram_total sources = n.
Proof.
  unfold get_user_info. unfold_M.
  destruct (negb (path_exists _ w)); [done|].
  destruct (load_local _ w) as [[vs|e] w1] eqn:Hl; [|done].
  apply load_local_inv in Hl as (Hix & _ & ->).
  destruct (count_sources _ _) as [e|srcs] eqn:Hc; [done|].
  destruct (directory_size _ _) as [[size|e] w2]; [|done].
  intros [= <- <- <- <- <- <-].
  apply count_sources_counts in Hc as (Hcount & Htotal & Hzero).
  exists vs. split; [done|]. split; [apply length_all_docs_of|].
  split; [|split].
  - intros s. rewrite Hcount, lookup_empty. done.
  - intros s. apply Hzero. by rewrite lookup_empty.
  - rewrite Htotal. unfold histogram_total at 1.
    by rewrite map_fold_empty.
Qed.

Lemma info_histogram_witness :
  exists sources sz w',
    get_user_info (Cap := length_capabilities)
      "alice" default_save_path alice_world
    = (Returned (InfoSuccess "alice" 2
                   "user_embeddings/alice/alice_faiss_index" sources sz), w')
    /\ sources !! "txt" = Some 2%nat
    /\ histogram_total sources = 2%nat.
Proof.
  destruct (get_user_info (Cap := length_capabilities)
              "alice" default_save_path alice_world) as [o w'] eqn:E.
  assert (exists sources sz,
            o = Returned (InfoSuccess "alice" 2
                            "user_embeddings/alice/alice_faiss_index"
                            sources sz)
            /\ sources !! "txt" = Some 2%nat) as (sources & sz & -> & Htxt).
  { apply (f_equal fst) in E. cbn [fst] in E. subst o.
    eexists _, _. split; vm_compute; reflexivity. }
  exists sources, sz, w'. split; [done|]. split; [done|].
  by destruct (info_histogram (Cap := length_capabilities) _ _ _ _ _ _ _ _ _ E)
    as (vs & _ & _ & _ & _ & Ht).
Defined.

(* ================================================================== *)
(** ** The endpoint, corrupt indexes, absolute user ids, threads *)
(* ================================================================== *)

(** X12. [ask_question_endpoint] has three outcomes and no other.  It
    raises status 400, before the agent runs and with the world as it
    was, exactly when the query or the user id is empty or white space.
    Otherwise the agent is streamed once: when the stream ends with an
    exception [e] the handler raises status 500 with the detail
    ["Error processing query: " + str(e)]; when it does not, the handler
    returns status 200 with the query and the user id of the request and
    the time read after the answer. *)
Theorem endpoint_outcomes `{Cap : Capabilities}
    (agent_stream : string -> string -> World
                    -> (list Event * option exn) * World)
    (request : NexusFlowRequest) (w : World) :
  let blank :=
    all_space (req_query request) || all_space (req_user_id request) in
  let streamed :=
    agent_stream
      (enhanced_query_of (req_query request) (req_user_id request))
      (get_user_config (req_user_id request)) w in
  match ask_question_endpoint agent_stream request w with
  | (inl (mkHTTPException code detail), w') =>
      if blank then code = 400%nat /\ w' = w
      else code = 500%nat /\ w' = streamed.2
           /\ exists e, streamed.1.2 = Some e
                        /\ detail
                           = "Error processing query: " +:+ str_of_exn e
  | (inr r, w') =>
      blank = false /\ streamed.1.2 = None /\ w' = streamed.2
      /\ response_status_code r = 200%nat
      /\ response_query r = req_query request
      /\ response_user_id r = req_user_id request
      /\ timestamp r = clock w'
  end.
Proof.
  unfold ask_question_endpoint. rewrite !blank_test.
  destruct (all_space (req_query request)); [done|].
  destruct (all_space (req_user_id request)); [done|].
  unfold ask_question.
  destruct (agent_stream _ _ w) as [[events [e|]] w']; cbn.
  - split; [done|]. split; [done|]. by exists e.
  - done.
Qed.

(** A message among the documents makes the counting loop of
    [get_user_info] raise. *)
Lemma count_sources_message `{Cap : Capabilities}
    (docs : list (string + Document)) (msg : string)
    (sources : gmap string nat) :
  inl msg ∈ docs ->
  count_sources docs sources
  = inl (Exn "AttributeError" "'str' object has no attribute 'metadata'").
Proof.
  revert sources. induction docs as [|[m|doc] docs IH]; intros sources Hin.
  - by apply elem_of_nil in Hin.
  - done.
  - apply elem_of_cons in Hin as [?|Hin]; [done|]. cbn. by apply IH.
Qed.

(** X13. When the saved index of a user names a document id that its
    docstore does not hold, [get_user_info] answers with an error whose
    text is that of the attribute error raised by the counting loop: the
    docstore answers a missing id with a message, the message is kept
    as a document, and reading its metadata fails.  Nothing but the load
    of the index is recorded. *)
Theorem info_dangling_id `{Cap : Capabilities}
    (u sp : string) (w : World) (vs : FAISS) (i : nat) (id : string) :
  indexes w !! vector_store_path_of sp u = Some vs ->
  fault w (OpLoad (vector_store_path_of sp u)) = None ->
  index_to_docstore_id vs !! i = Some id ->
  docstore vs !! id = None ->
  get_user_info u sp w
  = (Returned
       (InfoError (Some "'str' object has no attribute 'metadata'")
          ("Failed to get info for user " +:+ u)),
     log (CallLoad (vector_store_path_of sp u)) w).
Proof.
  intros Hix Hfault Hi Hid.
  unfold get_user_info. unfold_M.
  unfold path_exists. rewrite Hix.
  rewrite (bool_decide_eq_true_2 (is_Some (Some vs))) by by eexists.
  rewrite orb_true_r. cbn [negb].
  unfold load_local. cbn. rewrite Hfault, Hix.
  rewrite (count_sources_message _ ("ID " +:+ id +:+ " not found.")); [done|].
  unfold all_docs_of. apply list_elem_of_filter. split; [done|].
  apply list_elem_of_In, in_map_iff. exists (i, id). split.
  - unfold docstore_search. cbn. by rewrite Hid.
  - by apply list_elem_of_In, elem_of_map_to_list.
Qed.

Lemma info_dangling_id_witness :
  get_user_info (Cap := length_capabilities)
    "bob" default_save_path dangling_world
  = (Returned
       (InfoError (Some "'str' object has no attribute 'metadata'")
          "Failed to get info for user bob"),
     log (Cap := length_capabilities)
       (CallLoad "user_embeddings/bob/bob_faiss_index") dangling_world).
Proof.
  apply (info_dangling_id (Cap := length_capabilities)
           "bob" default_save_path dangling_world dangling_store
           0%nat "gone"); vm_compute; reflexivity.
Defined.

(** X14. A user id that starts with a slash makes the base path
    irrelevant: the index path is the user id followed by
    ["_faiss_index"], and storing, searching and reporting behave the
    same under any two base paths. *)
Theorem absolute_user_id_ignores_save_path `{Cap : Capabilities}
    (u sp sp' : string) :
  Py.startswith_char Py.sep u = true ->
  vector_store_path_of sp u = u +:+ "_faiss_index"
  /\ (forall fp ds w,
        store_user_embedding fp u ds sp w
        = store_user_embedding fp u ds sp' w)
  /\ (forall q k fs w,
        search_user_embeddings q u k fs sp w
        = search_user_embeddings q u k fs sp' w)
  /\ (forall w, get_user_info u sp w = get_user_info u sp' w).
Proof.
  intros Hu.
  assert (forall s, user_dir_of s u = u) as Hd.
  { intros s. unfold user_dir_of. by apply join_absolute_r. }
  assert (forall s, vector_store_path_of s u = u +:+ "_faiss_index") as Hv.
  { intros s. unfold vector_store_path_of. apply join_absolute_r.
    rewrite startswith_app; [done|]. by destruct u. }
  split; [apply Hv|]. split; [|split].
  - intros fp ds w. unfold store_user_embedding.
    by rewrite (Hd sp), (Hd sp'), (Hv sp), (Hv sp').
  - intros q k fs w. unfold search_user_embeddings.
    by rewrite (Hv sp), (Hv sp').
  - intros w. unfold get_user_info.
    by rewrite (Hd sp), (Hd sp'), (Hv sp), (Hv sp').
Qed.

Lemma absolute_user_id_ignores_save_path_witness :
  vector_store_path_of "user_embeddings" "/srv/bob" = "/srv/bob_faiss_index"
  /\ store_user_embedding (Cap := length_capabilities)
       "a.txt" "/srv/bob" None "user_embeddings"
       (world_with (Cap := length_capabilities) two_files)
     = store_user_embedding (Cap := length_capabilities)
         "a.txt" "/srv/bob" None "elsewhere"
         (world_with (Cap := length_capabilities) two_files).
Proof.
  destruct (absolute_user_id_ignores_save_path (Cap := length_capabilities)
              "/srv/bob" "user_embeddings" "elsewhere" eq_refl)
    as (Hp & Hs & _).
  split; [exact Hp|apply Hs].
Defined.

(** X15. Users have threads of their own: [get_user_config] gives two
    users the same thread id only when they are the same user, and so does
    the text of [get_conversation_summary], which is built around that
    thread id. *)
Theorem thread_per_user (u u' : string) :
  (get_user_config u = get_user_config u' -> u = u')
  /\ (get_conversation_summary u = get_conversation_summary u' -> u = u')
  /\ get_conversation_summary u
     = "Conversation thread: " +:+ get_user_config u
         +:+ " - CapAmerica product catalog inquiry".
Proof.
  assert (forall (a b t : string), a +:+ t = b +:+ t -> a = b) as Hsuffix.
  { intros a b t E.
    assert (String.length a = String.length b) as Hlen.
    { apply (f_equal String.length) in E.
      rewrite !string_length_app in E. lia. }
    by destruct (string_app_inv a b t t Hlen E). }
  split; [|split].
  - unfold get_user_config. intros E.
    by destruct (string_app_inv "user_" "user_" u u' eq_refl E).
  - unfold get_conversation_summary. intros E.
    destruct (string_app_inv "Conversation thread: user_"
                "Conversation thread: user_" _ _ eq_refl E) as [_ E'].
    by apply Hsuffix in E'.
  - done.
Qed.

Lemma thread_per_user_witness :
  (get_user_config "alice" = get_user_config "alice" -> "alice" = "alice")
  /\ get_conversation_summary "alice"
     = "Conversation thread: user_alice - CapAmerica product catalog inquiry".
Proof.
  destruct (thread_per_user "alice" "alice") as (Hc & _ & Hs).
  split; [exact Hc|exact Hs].
Defined.

(** X16. [get_user_info] only reads: files, folders, saved indexes and
    the id counter are as before whatever it answers.  Without an index
    at the user's path it answers ["No embeddings found for user ..."]
    with no error text and leaves the world as it was; with one, the
    only call it records is the load of that index. *)
Theorem info_only_reads `{Cap : Capabilities}
    (u sp : string) (w : World) (o : outcome InfoResponse) (w' : World) :
  get_user_info u sp w = (o, w') ->
  files w' = files w /\ dirs w' = dirs w /\ indexes w' = indexes w
  /\ uuid_count w' = uuid_count w
  /\ (path_exists (vector_store_path_of sp u) w = false ->
      o = Returned (InfoError None ("No embeddings found for user " +:+ u))
      /\ w' = w)
  /\ (path_exists (vector_store_path_of sp u) w = true ->
      calls_since w w' [CallLoad (vector_store_path_of sp u)]).
Proof.
  unfold get_user_info, calls_since. unfold_M.
  destruct (path_exists _ w); cbn [negb].
  2:{ intros [= <- <-]. by repeat split. }
  destruct (load_local _ w) as [[vs|e] w1] eqn:Hl;
    apply load_local_effect in Hl as ->.
  2:{ intros [= <- <-]. by repeat split. }
  destruct (count_sources _ _) as [e|srcs].
  { intros [= <- <-]. by repeat split. }
  unfold directory_size.
  destruct (fault _ _).
  { intros [= <- <-]. by repeat split. }
  destruct (negb _); intros [= <- <-]; by repeat split.
Qed.

Lemma info_only_reads_witness :
  get_user_info (Cap := length_capabilities)
    "carol" default_save_path alice_world
  = (Returned (InfoError None "No embeddings found for user carol"),
     alice_world).
Proof.
  destruct (get_user_info (Cap := length_capabilities)
              "carol" default_save_path alice_world) as [o w'] eqn:E.
  destruct (info_only_reads (Cap := length_capabilities) _ _ _ _ _ E)
    as (_ & _ & _ & _ & Hnone & _).
  destruct Hnone as [-> ->]; [vm_compute; reflexivity|reflexivity].
Defined.
